(** * Direct Line conversation service: session lifecycle and polling

    A shallow embedding of [DirectLineConversationService]
    (directline_conversation_service.py).  The service object is a record
    of its fields; the outside world (the wall clock, the Direct Line
    server, [time.sleep]) is an oracle that the methods consult in the
    order the Python code does, and every request and every sleep is
    appended to a log.  Methods are state transformers over the pair of
    the two.

    Numbers (timestamps, [expires_in], [wait_time]) are integers: seconds
    read off the clock or sent by the server.  Where Python turns an
    integer into a float or into a duration it can refuse, and the model
    refuses with it ([OverflowError]); an integer that becomes a float is
    rounded as Python rounds it, and so is the sum of the clock and a
    lifetime too long to be added exactly. *)

From Stdlib Require Import ZArith String List Bool Lia.
Import ListNotations.

Local Open Scope string_scope.
Local Open Scope list_scope.
Local Open Scope Z_scope.

(** ** Python values that cross the HTTP boundary *)

(** What [response.json()] can produce.  [JNull] is Python's [None]. *)
#[local] Set Warnings "-register-all".
Inductive Json : Type :=
| JNull
| JBool (b : bool)
| JNum (n : Z)
| JStr (s : string)
| JArr (items : list Json)
| JObj (fields : list (string * Json)).

(** Exceptions the code can meet inside its [try] blocks, and the ones
    ([ValueError] and [OverflowError] of [time.sleep]) that it does not
    catch. *)
Inductive Exn : Type :=
| TransportError (msg : string)
| JSONDecodeError
| AttributeError
| TypeError
| ValueError
| OverflowError.

Inductive Try (A : Type) : Type :=
| Ok (a : A)
| Raise (e : Exn).
Arguments Ok {A} a.
Arguments Raise {A} e.

Definition try_bind {A B} (t : Try A) (k : A -> Try B) : Try B :=
  match t with
  | Ok a => k a
  | Raise e => Raise e
  end.

Module Py.

(** Truth value testing: [if v:]. *)
Definition truthy (v : Json) : bool :=
  match v with
  | JNull => false
  | JBool b => b
  | JNum n => negb (n =? 0)
  | JStr s => negb (String.eqb s "")
  | JArr items => match items with [] => false | _ => true end
  | JObj fields => match fields with [] => false | _ => true end
  end.

(** [a or b]. *)
Definition or (a b : Json) : Json := if truthy a then a else b.

Fixpoint lookup (k : string) (fields : list (string * Json)) : option Json :=
  match fields with
  | [] => None
  | (k', v) :: rest => if String.eqb k k' then Some v else lookup k rest
  end.

(** [d.get(k, dflt)]; only a dict has [get]. *)
Definition get (d : Json) (k : string) (dflt : Json) : Try Json :=
  match d with
  | JObj fields =>
      Ok (match lookup k fields with Some v => v | None => dflt end)
  | _ => Raise AttributeError
  end.

Fixpoint chars (s : string) : list Json :=
  match s with
  | EmptyString => []
  | String c rest => JStr (String c EmptyString) :: chars rest
  end.

(** [len(v)]. *)
Definition len (v : Json) : Try Z :=
  match v with
  | JStr s => Ok (Z.of_nat (String.length s))
  | JArr items => Ok (Z.of_nat (List.length items))
  | JObj fields => Ok (Z.of_nat (List.length fields))
  | _ => Raise TypeError
  end.

(** The items [for x in v] runs over. *)
Definition iter (v : Json) : Try (list Json) :=
  match v with
  | JStr s => Ok (chars s)
  | JArr items => Ok items
  | JObj fields => Ok (map (fun kv => JStr (fst kv)) fields)
  | _ => Raise TypeError
  end.

(** The right operand of [float + v]: numbers, and booleans as 0 and 1. *)
Definition number (v : Json) : Try Z :=
  match v with
  | JNum n => Ok n
  | JBool b => Ok (if b then 1 else 0)
  | _ => Raise TypeError
  end.

(** The double nearest to the integer [n] (ties to the even mantissa), as
    an integer; exact below 2^53. *)
Definition round_to_float (n : Z) : Z :=
  let a := Z.abs n in
  if a <? 2 ^ 53 then n
  else
    let unit := 2 ^ (Z.log2 a - 52) in
    let q := a / unit in
    let r := a mod unit in
    let half := unit / 2 in
    let mantissa :=
      if r <? half then q
      else if half <? r then q + 1
           else if Z.even q then q else q + 1 in
    Z.sgn n * (mantissa * unit).

(** [float(n)] for an int [n], as [float + int] computes it: an integer
    that rounds beyond the largest double raises [OverflowError]. *)
Definition to_float (n : Z) : Try Z :=
  if Z.abs n <? 2 ^ 53 then Ok n
  else if 2 ^ 1024 <=? Z.abs (round_to_float n) then Raise OverflowError
       else Ok (round_to_float n).

(** The right operand of [float + v], as the float that is added. *)
Definition as_float (v : Json) : Try Z := try_bind (number v) to_float.

(** [t + f] for floats: the double nearest to the sum.  A lifetime [f]
    below 2^52 added to a clock reading below 2^52 gives the sum itself,
    and with such an [f] the sum is taken exact at every clock reading. *)
Definition float_add (t f : Z) : Z :=
  if Z.abs f <? 2 ^ 52 then t + f else round_to_float (t + f).

(** [v != s] for a string literal [s]. *)
Definition ne_str (v : Json) (s : string) : bool :=
  match v with
  | JStr s' => negb (String.eqb s' s)
  | _ => true
  end.

End Py.

(** ** The service object and the world around it *)

Record Service : Type := mkService {
  auth_header_value : string;
  current_token : Json;
  token_expires_at : option Z;
  conversation_id : Json;
  watermark : Json
}.

(** [__init__]: no token, no conversation, no watermark. *)
Definition init (auth : string) : Service :=
  mkService auth JNull None JNull JNull.

(** The activity [send_message] posts.  [timestamp] is the clock reading
    whose ISO rendering the code sends. *)
Record Activity : Type := mkActivity {
  act_type : string;
  act_from_id : string;
  act_from_name : string;
  act_text : string;
  act_locale : string;
  act_timestamp : Z;
  act_channelId : string
}.

Record Response : Type := mkResponse {
  status_code : Z;
  text : string;          (* response.text; response.content is empty with it *)
  json : option Json      (* response.json(); None when it raises *)
}.

Inductive Reply : Type :=
| Raised (msg : string)   (* session.post / session.get raised *)
| Responded (r : Response).

Inductive Request : Type :=
| PostTokensGenerate (auth : string)   (* the configured header value; the
                                         code sends it minus "Bearer " *)
| PostConversations (token : Json)
| PostActivities (conversation token : Json) (activity : Activity)
| GetActivities (conversation : Json) (watermark_param : option Json) (token : Json).

Inductive Event : Type :=
| Http (r : Request)
| Slept (secs : Z).

Record World : Type := mkWorld {
  clock : nat -> Z;       (* successive readings of datetime.now().timestamp() *)
  ticks : nat;            (* readings taken so far *)
  server : nat -> Reply;  (* outcome of the n-th HTTP call *)
  calls : nat;            (* HTTP calls made so far *)
  log : list Event        (* requests and sleeps, oldest first *)
}.

Definition State : Type := Service * World.

Definition M (A : Type) : Type := State -> A * State.

Definition ret {A} (a : A) : M A := fun st => (a, st).

Definition bind {A B} (m : M A) (k : A -> M B) : M B :=
  fun st => let (a, st') := m st in k a st'.

Declare Scope py_scope.
Delimit Scope py_scope with py.
Notation "x <- m ;; k" := (bind m (fun x => k))
  (at level 61, m at next level, right associativity) : py_scope.
Notation "m ;;; k" := (bind m (fun _ => k))
  (at level 61, right associativity) : py_scope.
Local Open Scope py_scope.

Definition self : M Service := fun st => (fst st, st).

Definition update (f : Service -> Service) : M unit :=
  fun st => (tt, (f (fst st), snd st)).

Definition set_current_token (v : Json) (s : Service) : Service :=
  mkService (auth_header_value s) v (token_expires_at s)
            (conversation_id s) (watermark s).

Definition set_token_expires_at (t : Z) (s : Service) : Service :=
  mkService (auth_header_value s) (current_token s) (Some t)
            (conversation_id s) (watermark s).

Definition set_conversation_id (v : Json) (s : Service) : Service :=
  mkService (auth_header_value s) (current_token s) (token_expires_at s)
            v (watermark s).

Definition set_watermark (v : Json) (s : Service) : Service :=
  mkService (auth_header_value s) (current_token s) (token_expires_at s)
            (conversation_id s) v.

(** [datetime.now(timezone.utc).timestamp()] *)
Definition now : M Z :=
  fun st =>
    let w := snd st in
    (clock w (ticks w),
     (fst st, mkWorld (clock w) (S (ticks w)) (server w) (calls w) (log w))).

(** [self.session.post(...)] / [self.session.get(...)] *)
Definition http (r : Request) : M Reply :=
  fun st =>
    let w := snd st in
    (server w (calls w),
     (fst st, mkWorld (clock w) (ticks w) (server w) (S (calls w))
                      (log w ++ [Http r]))).

(** The longest sleep, in seconds, that fits the signed 64-bit count of
    nanoseconds [time.sleep] converts its argument to. *)
Definition sleep_limit : Z := 9223372036.

(** [time.sleep(secs)]: the length is converted first, and a length whose
    nanoseconds do not fit raises [OverflowError]; then a negative length
    raises [ValueError]. *)
Definition sleep (secs : Z) : M (Try unit) :=
  fun st =>
    if (secs <? - sleep_limit) || (sleep_limit <? secs) then
      (Raise OverflowError, st)
    else if secs <? 0 then (Raise ValueError, st)
    else
      let w := snd st in
      (Ok tt,
       (fst st, mkWorld (clock w) (ticks w) (server w) (calls w)
                        (log w ++ [Slept secs]))).

(** ** Results *)

(** The [error] strings, by the message they are built from. *)
Inductive Error : Type :=
| TokenGenerationFailed (status : Z) (body : string)
| TokenGenerationError (e : Exn)
| TokenUnavailable
| ConversationIdMissing
| ConversationStartFailed (status : Z) (body : string)
| ConversationStartError (e : Exn)
| SendConversationFailed (inner : Error)
| SendFailed (status : Z) (body : string)
| SendError (e : Exn)
| NoConversationId
| GetFailed (status : Z) (body : string)
| GetError (e : Exn)
| RetriesExhausted (max_retries : Z).

Inductive TokenResult : Type :=
| TokenOk (token expires_in : Json)
| TokenFail (error : Error).

Inductive StartResult : Type :=
| StartOk (conversation conversation_data : Json)
| StartFail (error : Error).

Inductive SendResult : Type :=
| SendOk (status : Z) (response conversation : Json) (activity : Activity)
| SendFail (error : Error) (status : option Z).

Inductive GetResult : Type :=
| GetOk (activities new_watermark : Json) (bot_responses : list Json)
        (total_activities : Z)
| GetFail (error : Error) (status : option Z).

(** What [send_and_get_response] returns: the failed send result itself,
    the success dict, or the exhaustion dict. *)
Inductive ConversationResult : Type :=
| SendFailure (send_result : SendResult)
| BotReplied (message_sent : string) (bot_responses : list Json)
             (send_result : SendResult) (get_result : GetResult)
             (attempts : Z)
| NoReply (error : Error) (message_sent : string)
          (send_result : SendResult) (attempts : Z).

Definition token_success (r : TokenResult) : bool :=
  match r with TokenOk _ _ => true | TokenFail _ => false end.

Definition start_success (r : StartResult) : bool :=
  match r with StartOk _ _ => true | StartFail _ => false end.

Definition send_success (r : SendResult) : bool :=
  match r with SendOk _ _ _ _ => true | SendFail _ _ => false end.

Definition get_success (r : GetResult) : bool :=
  match r with GetOk _ _ _ _ => true | GetFail _ _ => false end.

Definition success (r : ConversationResult) : bool :=
  match r with
  | SendFailure s => send_success s
  | BotReplied _ _ _ _ _ => true
  | NoReply _ _ _ _ => false
  end.

(** ** The methods *)

Definition user_id : string := "user123".

Definition default_expires_in : Json := JNum 3600.

Definition safety_margin : Z := 300.

(** Lines 71-117.  The token is stored as soon as it is read; the clock
    is read before the addition can raise ([TypeError] for a lifetime
    that is no number, [OverflowError] for an integer beyond the floats). *)
Definition generate_direct_line_token : M TokenResult :=
  s <- self ;;
  reply <- http (PostTokensGenerate (auth_header_value s)) ;;
  match reply with
  | Raised msg => ret (TokenFail (TokenGenerationError (TransportError msg)))
  | Responded response =>
      if status_code response =? 200 then
        match json response with
        | None => ret (TokenFail (TokenGenerationError JSONDecodeError))
        | Some token_data =>
            match Py.get token_data "token" JNull with
            | Raise e => ret (TokenFail (TokenGenerationError e))
            | Ok token =>
                update (set_current_token token) ;;;
                match Py.get token_data "expires_in" default_expires_in with
                | Raise e => ret (TokenFail (TokenGenerationError e))
                | Ok expires_in =>
                    t <- now ;;
                    match Py.as_float expires_in with
                    | Raise e => ret (TokenFail (TokenGenerationError e))
                    | Ok n =>
                        update (set_token_expires_at (Py.float_add t n)) ;;;
                        update (set_conversation_id JNull) ;;;
                        update (set_watermark JNull) ;;;
                        s' <- self ;;
                        ret (TokenOk (current_token s') expires_in)
                    end
                end
            end
        end
      else
        ret (TokenFail
               (TokenGenerationFailed (status_code response) (text response)))
  end.

(** The condition of line 123-125; [and] short-circuits, so the clock is
    read only when a token and a non-zero expiry are stored. *)
Definition token_still_valid : M bool :=
  s <- self ;;
  if Py.truthy (current_token s) then
    match token_expires_at s with
    | None => ret false
    | Some expires_at =>
        if expires_at =? 0 then ret false
        else
          t <- now ;;
          ret (t <? expires_at - safety_margin)
    end
  else ret false.

(** Lines 119-137. *)
Definition ensure_token_available : M bool :=
  valid <- token_still_valid ;;
  if valid then
    _ <- now ;;   (* [remaining], for the log line *)
    ret true
  else
    update (set_conversation_id JNull) ;;;
    update (set_watermark JNull) ;;;
    result <- generate_direct_line_token ;;
    ret (token_success result).

Definition status_in (codes : list Z) (r : Response) : bool :=
  existsb (Z.eqb (status_code r)) codes.

(** Lines 139-178. *)
Definition start_conversation : M StartResult :=
  ok <- ensure_token_available ;;
  if negb ok then ret (StartFail TokenUnavailable)
  else
    s <- self ;;
    reply <- http (PostConversations (current_token s)) ;;
    match reply with
    | Raised msg => ret (StartFail (ConversationStartError (TransportError msg)))
    | Responded response =>
        if status_in [200; 201] response then
          match json response with
          | None => ret (StartFail (ConversationStartError JSONDecodeError))
          | Some conversation_data =>
              match Py.get conversation_data "conversationId" JNull with
              | Raise e => ret (StartFail (ConversationStartError e))
              | Ok new_conversation_id =>
                  if Py.truthy new_conversation_id then
                    update (set_conversation_id new_conversation_id) ;;;
                    update (set_watermark JNull) ;;;
                    ret (StartOk new_conversation_id conversation_data)
                  else ret (StartFail ConversationIdMissing)
              end
          end
        else
          ret (StartFail
                 (ConversationStartFailed (status_code response) (text response)))
    end.

Definition start_error (r : StartResult) : Error :=
  match r with StartOk _ _ => ConversationIdMissing | StartFail e => e end.

(** Lines 203-260: the part of [send_message] after the conversation is
    secured. *)
Definition post_message (message : string) : M SendResult :=
  s <- self ;;
  t <- now ;;
  let activity :=
    mkActivity "message" user_id "Test User" message "ja-JP" t "directline" in
  reply <- http (PostActivities (conversation_id s) (current_token s) activity) ;;
  match reply with
  | Raised msg => ret (SendFail (SendError (TransportError msg)) None)
  | Responded response =>
      if status_in [200; 201; 202] response then
        if String.eqb (text response) "" then
          ret (SendOk (status_code response) (JObj []) (conversation_id s) activity)
        else
          match json response with
          | None => ret (SendFail (SendError JSONDecodeError) None)
          | Some response_data =>
              ret (SendOk (status_code response) response_data
                          (conversation_id s) activity)
          end
      else
        ret (SendFail (SendFailed (status_code response) (text response))
                      (Some (status_code response)))
  end.

(** Lines 180-260. *)
Definition send_message (message : string) : M SendResult :=
  ok <- ensure_token_available ;;
  if negb ok then ret (SendFail TokenUnavailable None)
  else
    s <- self ;;
    if negb (Py.truthy (conversation_id s)) then
      conversation_result <- start_conversation ;;
      if negb (start_success conversation_result) then
        ret (SendFail (SendConversationFailed (start_error conversation_result))
                      None)
      else post_message message
    else post_message message.

(** One turn of the loop of lines 316-337: the texts this activity adds
    to [bot_responses], or the exception it stops the method with. *)
Definition scan_activity (activity : Json) : Try (list Json) :=
  try_bind (Py.get activity "type" (JStr "unknown")) (fun _ =>
  try_bind (Py.get activity "from" (JObj [])) (fun sender =>
  try_bind (Py.get sender "id" (JStr "unknown")) (fun from_id =>
  try_bind (Py.get activity "text" (JStr "")) (fun text =>
  let found :=
    if Py.truthy text then
      if Py.ne_str from_id user_id then [text] else []
    else [] in
  try_bind (Py.get activity "attachments" JNull) (fun attachments =>
  try_bind (if Py.truthy attachments then Py.len attachments else Ok 0)
           (fun _ => Ok found)))))).

Fixpoint scan_activities (activities : list Json) : Try (list Json) :=
  match activities with
  | [] => Ok []
  | activity :: rest =>
      try_bind (scan_activity activity) (fun found =>
      try_bind (scan_activities rest) (fun more => Ok (found ++ more)))
  end.

(** Lines 311-347, after the watermark has been stored. *)
Definition read_activities (activities : Json) : Try (list Json * Z) :=
  try_bind (Py.len activities) (fun total =>
  try_bind (Py.iter activities) (fun items =>
  try_bind (scan_activities items) (fun bot_responses =>
  Ok (bot_responses, total)))).

(** The [?watermark=...] suffix of line 283-284. *)
Definition watermark_query (watermark_arg stored : Json) : option Json :=
  if Py.truthy (Py.or watermark_arg stored)
  then Some (Py.or watermark_arg stored)
  else None.

(** Lines 262-360. *)
Definition get_activities (watermark_arg : Json) : M GetResult :=
  ok <- ensure_token_available ;;
  if negb ok then ret (GetFail TokenUnavailable None)
  else
    s <- self ;;
    if negb (Py.truthy (conversation_id s)) then
      ret (GetFail NoConversationId None)
    else
      reply <- http (GetActivities (conversation_id s)
                                   (watermark_query watermark_arg (watermark s))
                                   (current_token s)) ;;
      match reply with
      | Raised msg => ret (GetFail (GetError (TransportError msg)) None)
      | Responded response =>
          if status_code response =? 200 then
            match json response with
            | None => ret (GetFail (GetError JSONDecodeError) None)
            | Some activities_data =>
                match Py.get activities_data "activities" (JArr []) with
                | Raise e => ret (GetFail (GetError e) None)
                | Ok activities =>
                    match Py.get activities_data "watermark" JNull with
                    | Raise e => ret (GetFail (GetError e) None)
                    | Ok new_watermark =>
                        (if Py.truthy new_watermark
                         then update (set_watermark new_watermark)
                         else ret tt) ;;;
                        match read_activities activities with
                        | Raise e => ret (GetFail (GetError e) None)
                        | Ok (bot_responses, total) =>
                            ret (GetOk activities new_watermark
                                       bot_responses total)
                        end
                    end
                end
            end
          else
            ret (GetFail (GetFailed (status_code response) (text response))
                         (Some (status_code response)))
      end.

(** [get_result.get("bot_responses", [])] *)
Definition bot_responses_of (r : GetResult) : list Json :=
  match r with
  | GetOk _ _ bot_responses _ => bot_responses
  | GetFail _ _ => []
  end.

(** The test of lines 385-388: the poll succeeded and found a reply. *)
Definition has_reply (r : GetResult) : bool :=
  get_success r && match bot_responses_of r with [] => false | _ => true end.

(** The loop of lines 377-405 with [remaining] turns still to run;
    [attempt] is the loop variable.  [get_activities()] is called with
    its default argument, [None]. *)
Fixpoint poll (message : string) (wait_time max_retries : Z)
         (send_result : SendResult) (remaining : nat) (attempt : Z)
  : M (Try ConversationResult) :=
  match remaining with
  | O =>
      ret (Ok (NoReply (RetriesExhausted max_retries) message send_result
                       max_retries))
  | S remaining' =>
      slept <- sleep wait_time ;;
      match slept with
      | Raise e => ret (Raise e)
      | Ok _ =>
          get_result <- get_activities JNull ;;
          if has_reply get_result then
            ret (Ok (BotReplied message (bot_responses_of get_result)
                                send_result get_result (attempt + 1)))
          else
            poll message wait_time max_retries send_result remaining'
                 (attempt + 1)
      end
  end.

(** Lines 362-415; [range(max_retries)] has [Z.to_nat max_retries] items. *)
Definition send_and_get_response (message : string) (wait_time max_retries : Z)
  : M (Try ConversationResult) :=
  send_result <- send_message message ;;
  if negb (send_success send_result) then ret (Ok (SendFailure send_result))
  else poll message wait_time max_retries send_result
            (Z.to_nat max_retries) 0.

(** ** Scripted worlds, to run the methods on *)

Definition script (replies : list Reply) : nat -> Reply :=
  fun n => nth n replies (Raised "connection refused").

Definition replied (status : Z) (body : Json) : Reply :=
  Responded (mkResponse status "{...}" (Some body)).

Definition world (time : nat -> Z) (replies : list Reply) : World :=
  mkWorld time 0 (script replies) 0 [].

(** A clock that stands still at [t]. *)
Definition frozen (t : Z) : nat -> Z := fun _ => t.

Definition token_reply : Reply :=
  replied 200 (JObj [("token", JStr "tok"); ("expires_in", JNum 3600)]).

Definition conversation_reply : Reply :=
  replied 201 (JObj [("conversationId", JStr "conv1")]).

Definition sent_reply : Reply :=
  replied 200 (JObj [("id", JStr "conv1|0000001")]).

Definition bot_activity (from_id body : string) : Json :=
  JObj [("type", JStr "message");
        ("from", JObj [("id", JStr from_id)]);
        ("text", JStr body)].

Definition activities_reply (activities : list Json) (mark : string) : Reply :=
  replied 200 (JObj [("activities", JArr activities); ("watermark", JStr mark)]).

Definition fresh : Service := init "Bearer secret".

Definition told_nothing : Reply := activities_reply [] "3".

(** The server is unreachable from the start. *)
Definition offline : State := (fresh, world (frozen 1000) []).

(** Token, conversation and send go through; nothing is scripted after. *)
Definition sent_only : State :=
  (fresh, world (frozen 1000) [token_reply; conversation_reply; sent_reply]).

(** The first poll sees only the user's own message, the second a reply;
    three more replies are scripted behind it. *)
Definition reply_on_second : State :=
  (fresh,
   world (frozen 1000)
         [token_reply; conversation_reply; sent_reply;
          activities_reply [bot_activity "user123" "hi"] "1";
          activities_reply [bot_activity "bot1" "hello"] "2";
          activities_reply [bot_activity "bot1" "again"] "3";
          activities_reply [bot_activity "bot1" "again"] "4";
          activities_reply [bot_activity "bot1" "again"] "5"]).

(** The first poll fails with status 502, the other two find no reply. *)
Definition never_replies : State :=
  (fresh,
   world (frozen 1000)
         [token_reply; conversation_reply; sent_reply;
          Responded (mkResponse 502 "Bad Gateway" None);
          activities_reply [bot_activity "user123" "hi"] "1";
          told_nothing]).

(** ** Names for the two paths of [ensure_token_available] *)

(** The world after one more clock reading. *)
Definition tick (w : World) : World :=
  mkWorld (clock w) (S (ticks w)) (server w) (calls w) (log w).

(** Lines 133-134. *)
Definition forget_conversation (s : Service) : Service :=
  set_watermark JNull (set_conversation_id JNull s).

(** Lines 131-137: reset, fetch, report. *)
Definition refetch (s : Service) (w : World) : bool * State :=
  let (result, st) := generate_direct_line_token (forget_conversation s, w) in
  (token_success result, st).

(** A session in mid-conversation whose token ran out at 4600; the token
    endpoint answers 401. *)
Definition expired_refused : State :=
  (mkService "Bearer secret" (JStr "tok") (Some 4600) (JStr "conv1") (JStr "7"),
   world (frozen 5000) [Responded (mkResponse 401 "Unauthorized" None)]).

(** The same session; the token endpoint issues a new token. *)
Definition expired_renewed : State :=
  (mkService "Bearer secret" (JStr "tok") (Some 4600) (JStr "conv1") (JStr "7"),
   world (frozen 5000) [token_reply]).

(** A new session about to fetch its first token, at time 1000. *)
Definition first_fetch : State := (fresh, world (frozen 1000) [token_reply]).

(** Some later world in which the clock reads [t]. *)
Definition later (t : Z) : World := world (frozen t) [token_reply].

(** ** Bot responses, as section 4.4 of the specification words them *)

Definition field (k : string) (activity : Json) : option Json :=
  match activity with
  | JObj fields => Py.lookup k fields
  | _ => None
  end.

(** The sender id of an activity, when it names one. *)
Definition sender_id (activity : Json) : option Json :=
  match field "from" activity with
  | Some sender => field "id" sender
  | None => None
  end.

Definition from_local_user (activity : Json) : bool :=
  match sender_id activity with
  | Some (JStr id) => String.eqb id user_id
  | _ => false
  end.

(** The text is present and not empty (for values that are not strings:
    not false in Python's sense). *)
Definition has_text (activity : Json) : bool :=
  match field "text" activity with
  | Some body => Py.truthy body
  | None => false
  end.

Definition text_of (activity : Json) : Json :=
  match field "text" activity with
  | Some body => body
  | None => JStr ""
  end.

Definition spec_bot_responses (activities : list Json) : list Json :=
  map text_of
      (filter (fun a => negb (from_local_user a) && has_text a) activities).

(** The activity is one the loop of lines 316-337 gets through: an
    object whose "from" entry, when there is one, is an object, and whose
    "attachments" entry, when it is not empty, has a length. *)
Definition readable (activity : Json) : bool :=
  match activity with
  | JObj fields =>
      match Py.lookup "from" fields with
      | None => true
      | Some (JObj _) => true
      | Some _ => false
      end
      && match Py.lookup "attachments" fields with
         | None => true
         | Some attachments =>
             if Py.truthy attachments then
               match Py.len attachments with Ok _ => true | Raise _ => false end
             else true
         end
  | _ => false
  end.

(** The activity list of the specification's filtering example. *)
Definition greeting_activities : list Json :=
  [bot_activity "user123" "hi";
   bot_activity "bot1" "hello";
   bot_activity "bot1" "welcome"].

(** A session with a valid token and a conversation, about to poll. *)
Definition about_to_poll (replies : list Reply) : State :=
  (mkService "Bearer secret" (JStr "tok") (Some 4600) (JStr "conv1") JNull,
   world (frozen 1000) replies).

(** Two polls in a row, answered with watermarks 4 and 9. *)
Definition polled_twice : State :=
  about_to_poll [activities_reply [] "4"; activities_reply [] "9"].

(** ** The retry loop, attempt by attempt *)

(** One polling attempt: the wait, then [get_activities()]. *)
Definition attempt (wait_time : Z) (st : State) : GetResult * State :=
  get_activities JNull (snd (sleep wait_time st)).

(** The state [k] attempts later. *)
Fixpoint after_attempts (wait_time : Z) (k : nat) (st : State) : State :=
  match k with
  | O => st
  | S k' => after_attempts wait_time k' (snd (attempt wait_time st))
  end.

(** What attempt number [k + 1] gets back. *)
Definition attempt_result (wait_time : Z) (k : nat) (st : State) : GetResult :=
  fst (attempt wait_time (after_attempts wait_time k st)).

(** ** More scripted replies and sessions *)

(** A token reply that names no lifetime. *)
Definition no_expiry_reply : Reply :=
  replied 200 (JObj [("token", JStr "tok")]).

(** A token reply whose lifetime is not a number. *)
Definition bad_expiry_reply : Reply :=
  replied 200 (JObj [("token", JStr "new"); ("expires_in", JStr "soon")]).

(** A 200 reply of the token endpoint that carries no token. *)
Definition tokenless_reply : Reply :=
  replied 200 (JObj [("expires_in", JNum 3600)]).

(** A session in mid-conversation with a token good until 4600. *)
Definition in_conversation : Service :=
  mkService "Bearer secret" (JStr "tok") (Some 4600) (JStr "conv1") (JStr "7").

(** The activity [send_message] builds for [message] at clock reading [t]. *)
Definition message_activity (message : string) (t : Z) : Activity :=
  mkActivity "message" user_id "Test User" message "ja-JP" t "directline".

(** A conversation reply that names no conversation. *)
Definition nameless_conversation_reply : Reply :=
  replied 200 (JObj [("streamUrl", JStr "wss://directline")]).

(** A session holding a valid token and no conversation. *)
Definition with_token : Service :=
  mkService "Bearer secret" (JStr "tok") (Some 4600) JNull JNull.

(** A 200 poll reply with a watermark whose activity list is [null]. *)
Definition broken_activities_reply : Reply :=
  replied 200 (JObj [("activities", JNull); ("watermark", JStr "8")]).

(** The session of [in_conversation] about to poll at time 1000. *)
Definition polling (replies : list Reply) : State :=
  (in_conversation, world (frozen 1000) replies).

(** The session of [in_conversation] at time 5000, when its token has run
    out; the token endpoint issues a new one and every later poll would be
    answered with a bot reply. *)
Definition expired_mid_poll : State :=
  (in_conversation,
   world (frozen 5000)
         [token_reply;
          activities_reply [bot_activity "bot1" "hello"] "8";
          activities_reply [bot_activity "bot1" "hello"] "9"]).

(** The lengths of the sleeps in a log, oldest first. *)
Fixpoint waits (events : list Event) : list Z :=
  match events with
  | [] => []
  | Slept secs :: rest => secs :: waits rest
  | Http _ :: rest => waits rest
  end.

(** How many times [send_and_get_response] polled, by its result. *)
Definition attempts_made (max_retries : Z) (r : ConversationResult) : nat :=
  match r with
  | SendFailure _ => 0
  | BotReplied _ _ _ _ attempts => Z.to_nat attempts
  | NoReply _ _ _ _ => Z.to_nat max_retries
  end.

(** ** Construction *)

(** [os.getenv(name, default)] over the process environment, as it is
    after [load_dotenv()]. *)
Definition getenv (env : string -> option string) (name default : string)
  : string :=
  match env name with
  | Some value => value
  | None => default
  end.

(** Lines 62-69; an empty string is false. *)
Definition validate_configuration (endpoint_url header_value : string)
  : Try unit :=
  if String.eqb endpoint_url "" then Raise ValueError
  else if String.eqb header_value "" then Raise ValueError
       else Ok tt.

(** Lines 33-60.  The endpoint URL and the header name are read and
    logged, the URL is validated; no method uses either afterwards, and
    the service record does not keep them. *)
Definition construct (env : string -> option string) : Try Service :=
  let endpoint_url := getenv env "AGENT_ENDPOINT_URL" "" in
  let header_value := getenv env "CUSTOM_AUTH_HEADER_VALUE" "" in
  try_bind (validate_configuration endpoint_url header_value)
           (fun _ => Ok (init header_value)).

(** An environment that sets both required variables. *)
Definition configured : string -> option string :=
  fun name =>
    if String.eqb name "AGENT_ENDPOINT_URL" then Some "https://bot.example"
    else if String.eqb name "CUSTOM_AUTH_HEADER_VALUE" then Some "Bearer secret"
         else None.

(** ** The command line (conversation.py) *)

(** What [parser.parse_args()] hands over. *)
Record Args : Type := mkArgs {
  arg_message : string;
  arg_wait : Z;
  arg_retries : Z;
  arg_send_only : bool;
  arg_quiet : bool;        (* chooses what is printed, nothing else *)
  arg_continue : bool
}.

Section Console.

(** [str.strip] and [str.lower], Python's own. *)
Variable strip : string -> string.
Variable lower : string -> string.

Definition quit_words : list string := ["quit"; "exit"; "終了"; "q"].

(** [user_input.lower() in ['quit', 'exit', '終了', 'q']] *)
Definition wants_to_quit (user_input : string) : bool :=
  existsb (String.eqb (lower user_input)) quit_words.

(** The loop of lines 170-219 of conversation.py, on the lines still to be
    typed; at their end [input()] raises [EOFError].  The whole loop sits
    in one [try]: an exception ends it.  Interrupts are not modelled. *)
Fixpoint conversation_loop (args : Args) (inputs : list string) : M unit :=
  match inputs with
  | [] => ret tt
  | line :: rest =>
      let user_input := strip line in
      if wants_to_quit user_input then ret tt
      else if String.eqb user_input "" then conversation_loop args rest
      else if arg_send_only args then
        _ <- send_message user_input ;;
        conversation_loop args rest
      else
        outcome <- send_and_get_response user_input (arg_wait args)
                                         (arg_retries args) ;;
        match outcome with
        | Raise _ => ret tt
        | Ok _ => conversation_loop args rest
        end
  end.

(** Lines 126-221 of conversation.py.  The first exchange is outside the
    [try]. *)
Definition continuous_conversation_mode (initial_message : string)
           (args : Args) (inputs : list string) : M (Try bool) :=
  if arg_send_only args then
    result <- send_message initial_message ;;
    if send_success result then
      conversation_loop args inputs ;;; ret (Ok true)
    else ret (Ok false)
  else
    outcome <- send_and_get_response initial_message (arg_wait args)
                                     (arg_retries args) ;;
    match outcome with
    | Raise e => ret (Raise e)
    | Ok result =>
        if success result then
          conversation_loop args inputs ;;; ret (Ok true)
        else ret (Ok false)
    end.

(** The [try] of lines 70-123 of conversation.py: any exception gives
    [False]. *)
Definition exchange (args : Args) (inputs : list string) : M bool :=
  if arg_continue args then
    outcome <- continuous_conversation_mode (arg_message args) args inputs ;;
    ret (match outcome with Ok status => status | Raise _ => false end)
  else if arg_send_only args then
    result <- send_message (arg_message args) ;;
    ret (send_success result)
  else
    outcome <- send_and_get_response (arg_message args) (arg_wait args)
                                     (arg_retries args) ;;
    ret (match outcome with Ok result => success result | Raise _ => false end).

(** Lines 12-123 of conversation.py, after argument parsing.  The service
    is constructed outside the [try]. *)
Definition send_message_from_args (env : string -> option string)
           (args : Args) (inputs : list string) (w : World)
  : Try (bool * State) :=
  try_bind (construct env) (fun service => Ok (exchange args inputs (service, w))).

(** The loop of lines 278-307 of conversation.py, for [fuel] turns; [None]
    when the loop is still running after them.  The [try] sits inside the
    loop: the [EOFError] at the end of the input is caught and the loop
    goes on.  Interrupts are not modelled. *)
Fixpoint interactive_loop (fuel : nat) (inputs : list string)
  : M (option unit) :=
  match fuel with
  | O => ret None
  | S fuel' =>
      match inputs with
      | [] => interactive_loop fuel' []
      | line :: rest =>
          let user_input := strip line in
          if wants_to_quit user_input then ret (Some tt)
          else if String.eqb user_input "" then interactive_loop fuel' rest
          else
            _ <- send_and_get_response user_input 5 5 ;;
            interactive_loop fuel' rest
      end
  end.

(** Lines 269-307 of conversation.py. *)
Definition interactive_mode (env : string -> option string) (fuel : nat)
           (inputs : list string) (w : World) : Try (option unit * State) :=
  try_bind (construct env)
           (fun service => Ok (interactive_loop fuel inputs (service, w))).

End Console.

(** [str.lower] on ASCII letters and [str.strip] of spaces, to run the
    command line on examples. *)
Definition ascii_lower_char (c : Ascii.ascii) : Ascii.ascii :=
  let n := Ascii.nat_of_ascii c in
  if (Nat.leb 65 n && Nat.leb n 90)%bool then Ascii.ascii_of_nat (n + 32) else c.

Fixpoint ascii_lower (s : string) : string :=
  match s with
  | EmptyString => EmptyString
  | String c rest => String (ascii_lower_char c) (ascii_lower rest)
  end.

Fixpoint drop_spaces (l : list Ascii.ascii) : list Ascii.ascii :=
  match l with
  | [] => []
  | c :: rest =>
      if Ascii.eqb c (Ascii.ascii_of_nat 32) then drop_spaces rest else l
  end.

Definition ascii_strip (s : string) : string :=
  string_of_list_ascii
    (rev (drop_spaces (rev (drop_spaces (list_ascii_of_string s))))).

(** A run of the plain command: [--wait 2 --retries 5]. *)
Definition plain_args : Args := mkArgs "hi" 2 5 false false false.

(** The world of [reply_on_second] and of [sent_only]. *)
Definition second_reply_world : World := snd reply_on_second.

Definition sent_only_world : World := snd sent_only.

(** The plain command with [--wait -1]. *)
Definition hasty_args : Args := mkArgs "hi" (-1) 5 false false false.

(** The command with [--continue]. *)
Definition continue_args : Args := mkArgs "hi" 2 5 false false true.

(** Unfolds the monadic plumbing of a method body. *)
Ltac run :=
  unfold bind, ret, self, update, now, http; cbn [fst snd].

(** The same, and reads the fields of the worlds built on the way. *)
Ltac run_world :=
  run; cbn [fst snd clock ticks server calls log tick].

(** * Properties *)

Section RetryLoop.

Variables (message : string) (wait_time max_retries : Z).
Variable send_result : SendResult.
Hypothesis wait_in_range : 0 <= wait_time <= sleep_limit.

Lemma sleep_ok (st : State) : fst (sleep wait_time st) = Ok tt.
Proof.
  unfold sleep.
  destruct (Z.ltb_spec wait_time (- sleep_limit));
    [unfold sleep_limit in *; lia|].
  destruct (Z.ltb_spec sleep_limit wait_time); [lia|].
  destruct (Z.ltb_spec wait_time 0); [lia | reflexivity].
Qed.

Lemma poll_step (remaining : nat) (n : Z) (st : State) :
  poll message wait_time max_retries send_result (S remaining) n st =
  if has_reply (fst (attempt wait_time st)) then
    (Ok (BotReplied message (bot_responses_of (fst (attempt wait_time st)))
                    send_result (fst (attempt wait_time st)) (n + 1)),
     snd (attempt wait_time st))
  else
    poll message wait_time max_retries send_result remaining (n + 1)
         (snd (attempt wait_time st)).
Proof.
  pose proof (sleep_ok st) as Hs.
  unfold attempt. cbn [poll]. unfold bind at 1.
  destruct (sleep wait_time st) as [slept st1]. cbn [fst snd] in *.
  subst slept. unfold bind at 1.
  destruct (get_activities JNull st1) as [g st2]. cbn [fst snd].
  destruct (has_reply g); reflexivity.
Qed.

Lemma first_attempt_result (st : State) :
  attempt_result wait_time 0 st = fst (attempt wait_time st).
Proof. reflexivity. Qed.

Lemma later_attempt_result (k : nat) (st : State) :
  attempt_result wait_time (S k) st =
  attempt_result wait_time k (snd (attempt wait_time st)).
Proof. reflexivity. Qed.

(** No attempt finds a reply: the loop runs all its turns. *)
Lemma poll_exhausted (remaining : nat) :
  forall (n : Z) (st : State),
    (forall k, (k < remaining)%nat ->
               has_reply (attempt_result wait_time k st) = false) ->
    poll message wait_time max_retries send_result remaining n st =
    (Ok (NoReply (RetriesExhausted max_retries) message send_result max_retries),
     after_attempts wait_time remaining st).
Proof.
  induction remaining as [|r IH]; intros n st Hno.
  - reflexivity.
  - rewrite poll_step, <- first_attempt_result.
    rewrite (Hno O) by lia.
    rewrite IH; [reflexivity|].
    intros k Hk. rewrite <- later_attempt_result. apply Hno. lia.
Qed.

(** Attempt [k + 1] is the first to find a reply: the loop stops there. *)
Lemma poll_first_reply (k : nat) :
  forall (remaining : nat) (n : Z) (st : State),
    (k < remaining)%nat ->
    (forall j, (j < k)%nat ->
               has_reply (attempt_result wait_time j st) = false) ->
    has_reply (attempt_result wait_time k st) = true ->
    poll message wait_time max_retries send_result remaining n st =
    (Ok (BotReplied message (bot_responses_of (attempt_result wait_time k st))
                    send_result (attempt_result wait_time k st)
                    (n + Z.of_nat k + 1)),
     after_attempts wait_time (S k) st).
Proof.
  induction k as [|k IH]; intros remaining n st Hlt Hno Hyes.
  - destruct remaining as [|r]; [lia|].
    rewrite poll_step, <- first_attempt_result, Hyes.
    cbn [after_attempts Z.of_nat]. rewrite Z.add_0_r. reflexivity.
  - destruct remaining as [|r]; [lia|].
    rewrite poll_step, <- first_attempt_result.
    rewrite (Hno O) by lia.
    rewrite (IH r (n + 1) (snd (attempt wait_time st))).
    + rewrite <- later_attempt_result.
      change (after_attempts wait_time (S k) (snd (attempt wait_time st)))
        with (after_attempts wait_time (S (S k)) st).
      replace (n + Z.of_nat (S k) + 1) with (n + 1 + Z.of_nat k + 1) by lia.
      reflexivity.
    + lia.
    + intros j Hj. rewrite <- later_attempt_result. apply Hno. lia.
    + exact Hyes.
Qed.

End RetryLoop.

Lemma has_reply_false (r : GetResult) :
  get_success r = false \/ bot_responses_of r = [] -> has_reply r = false.
Proof.
  unfold has_reply. intros [H|H]; rewrite H.
  - reflexivity.
  - apply andb_false_r.
Qed.

Lemma has_reply_true (r : GetResult) :
  get_success r = true -> bot_responses_of r <> [] -> has_reply r = true.
Proof.
  unfold has_reply. intros -> H.
  destruct (bot_responses_of r); [contradiction | reflexivity].
Qed.

Lemma send_and_get_response_polls (message : string) (wait_time max_retries : Z)
      (st : State) :
  send_success (fst (send_message message st)) = true ->
  send_and_get_response message wait_time max_retries st =
  poll message wait_time max_retries (fst (send_message message st))
       (Z.to_nat max_retries) 0 (snd (send_message message st)).
Proof.
  intros Hs. unfold send_and_get_response, bind.
  destruct (send_message message st) as [sr st1]. cbn [fst snd] in *.
  rewrite Hs. reflexivity.
Qed.

(** C2. First success wins: with [max_retries = 5] and a wait that
    [time.sleep] accepts (not negative, not beyond its limit of about
    9.2e9 seconds), when the send
    succeeds, the first poll fails or finds no bot response and the
    second poll succeeds with a non-empty [bot_responses], the call
    returns the success result with [attempts = 2], the original message,
    the second poll's bot responses, the send result and that poll's
    result; the final state is the one right after the second poll, so
    attempts 3 to 5 never wait or poll. *)
Theorem first_success_wins (message : string) (wait_time : Z) (st : State) :
  let send_result := fst (send_message message st) in
  let sent := snd (send_message message st) in
  let second := attempt_result wait_time 1 sent in
  0 <= wait_time <= sleep_limit ->
  send_success send_result = true ->
  (get_success (attempt_result wait_time 0 sent) = false \/
   bot_responses_of (attempt_result wait_time 0 sent) = []) ->
  get_success second = true ->
  bot_responses_of second <> [] ->
  send_and_get_response message wait_time 5 st =
  (Ok (BotReplied message (bot_responses_of second) send_result second 2),
   after_attempts wait_time 2 sent).
Proof.
  intros send_result sent second Hw Hs H1 H2 H3.
  rewrite send_and_get_response_polls by exact Hs.
  fold send_result sent.
  change (Z.to_nat 5) with 5%nat.
  rewrite (poll_first_reply message wait_time 5 send_result Hw 1 5 0 sent).
  - reflexivity.
  - lia.
  - intros j Hj. assert (j = O) by lia. subst j.
    apply has_reply_false, H1.
  - apply has_reply_true; assumption.
Qed.

Lemma first_success_wins_witness :
  let sent := snd (send_message "hi" reply_on_second) in
  bot_responses_of (attempt_result 2 1 sent) = [JStr "hello"] /\
  send_and_get_response "hi" 2 5 reply_on_second =
  (Ok (BotReplied "hi" (bot_responses_of (attempt_result 2 1 sent))
                  (fst (send_message "hi" reply_on_second))
                  (attempt_result 2 1 sent) 2),
   after_attempts 2 2 sent).
Proof.
  split; [vm_compute; reflexivity|].
  apply (first_success_wins "hi" 2 reply_on_second).
  - unfold sleep_limit. lia.
  - vm_compute. reflexivity.
  - right. vm_compute. reflexivity.
  - vm_compute. reflexivity.
  - vm_compute. discriminate.
Defined.

(** C3. Retry exhaustion: when the send succeeds, [time.sleep] accepts
    the wait (not negative, not beyond its limit of about 9.2e9 seconds)
    and each of the
    [max_retries] polls either fails or finds no bot response, every one
    of them is made (a failed poll does not stop the loop) and the call
    returns the failure result with [attempts = max_retries] and the send
    result attached. *)
Theorem retry_exhaustion (message : string) (wait_time max_retries : Z)
        (st : State) :
  let send_result := fst (send_message message st) in
  let sent := snd (send_message message st) in
  0 <= wait_time <= sleep_limit ->
  send_success send_result = true ->
  (forall k, (k < Z.to_nat max_retries)%nat ->
             get_success (attempt_result wait_time k sent) = false \/
             bot_responses_of (attempt_result wait_time k sent) = []) ->
  send_and_get_response message wait_time max_retries st =
  (Ok (NoReply (RetriesExhausted max_retries) message send_result max_retries),
   after_attempts wait_time (Z.to_nat max_retries) sent).
Proof.
  intros send_result sent Hw Hs Hno.
  rewrite send_and_get_response_polls by exact Hs.
  fold send_result sent.
  apply poll_exhausted; [exact Hw|].
  intros k Hk. apply has_reply_false, Hno, Hk.
Qed.

Lemma retry_exhaustion_witness :
  get_success (attempt_result 2 0 (snd (send_message "hi" never_replies))) = false /\
  send_and_get_response "hi" 2 3 never_replies =
  (Ok (NoReply (RetriesExhausted 3) "hi"
               (fst (send_message "hi" never_replies)) 3),
   after_attempts 2 3 (snd (send_message "hi" never_replies))).
Proof.
  split; [vm_compute; reflexivity|].
  apply (retry_exhaustion "hi" 2 3 never_replies).
  - unfold sleep_limit. lia.
  - vm_compute. reflexivity.
  - intros k Hk. change (Z.to_nat 3) with 3%nat in Hk.
    destruct k as [|[|[|k]]]; [left | right | right | lia];
      vm_compute; reflexivity.
Defined.

(** C4. A failed send short-circuits polling: the call returns the send
    failure itself and leaves the state as [send_message] left it, so no
    wait and no [get_activities] call takes place. *)
Theorem send_failure_short_circuits (message : string)
        (wait_time max_retries : Z) (st : State) :
  send_success (fst (send_message message st)) = false ->
  send_and_get_response message wait_time max_retries st =
  (Ok (SendFailure (fst (send_message message st))),
   snd (send_message message st)).
Proof.
  intros Hs. unfold send_and_get_response, bind.
  destruct (send_message message st) as [sr st1]. cbn [fst snd] in *.
  rewrite Hs. reflexivity.
Qed.

Lemma send_failure_short_circuits_witness :
  send_and_get_response "hi" 2 5 offline =
  (Ok (SendFailure (SendFail TokenUnavailable None)),
   snd (send_message "hi" offline)).
Proof.
  apply (send_failure_short_circuits "hi" 2 5 offline).
  vm_compute. reflexivity.
Defined.

(** C10. Zero retries: with [max_retries <= 0] and a successful send, the
    call waits and polls not at all (the state is the one [send_message]
    left) and returns the failure result with [attempts = max_retries]
    and the send result attached; it does not report success. *)
Theorem zero_retries_fail (message : string) (wait_time max_retries : Z)
        (st : State) :
  max_retries <= 0 ->
  send_success (fst (send_message message st)) = true ->
  send_and_get_response message wait_time max_retries st =
  (Ok (NoReply (RetriesExhausted max_retries) message
               (fst (send_message message st)) max_retries),
   snd (send_message message st)) /\
  (forall r, fst (send_and_get_response message wait_time max_retries st) = Ok r ->
             success r = false).
Proof.
  intros Hm Hs.
  assert (E : send_and_get_response message wait_time max_retries st =
              (Ok (NoReply (RetriesExhausted max_retries) message
                           (fst (send_message message st)) max_retries),
               snd (send_message message st))).
  { rewrite send_and_get_response_polls by exact Hs.
    replace (Z.to_nat max_retries) with O by lia. reflexivity. }
  split; [exact E|].
  intros r Hr. rewrite E in Hr. cbn [fst] in Hr.
  injection Hr as <-. reflexivity.
Qed.

Lemma zero_retries_fail_witness :
  send_success (fst (send_message "hi" sent_only)) = true /\
  send_and_get_response "hi" (-1) 0 sent_only =
  (Ok (NoReply (RetriesExhausted 0) "hi" (fst (send_message "hi" sent_only)) 0),
   snd (send_message "hi" sent_only)).
Proof.
  split; [vm_compute; reflexivity|].
  apply (zero_retries_fail "hi" (-1) 0 sent_only);
    [lia | vm_compute; reflexivity].
Defined.

(** ** Token management *)

Lemma token_still_valid_keeps_service (st : State) :
  fst (snd (token_still_valid st)) = fst st.
Proof.
  destruct st as [s w]. unfold token_still_valid. run.
  destruct (Py.truthy (current_token s)); [|reflexivity].
  destruct (token_expires_at s) as [e|]; [|reflexivity].
  destruct (e =? 0); reflexivity.
Qed.

(** With a token and a non-zero expiry stored, the test of line 125 reads
    the clock once and compares. *)
Lemma token_still_valid_cached (s : Service) (w : World) (e : Z) :
  Py.truthy (current_token s) = true ->
  token_expires_at s = Some e ->
  e <> 0 ->
  token_still_valid (s, w) = (clock w (ticks w) <? e - safety_margin, (s, tick w)).
Proof.
  intros Ht He Hz. unfold token_still_valid. run.
  rewrite Ht, He. destruct (Z.eqb_spec e 0); [contradiction | reflexivity].
Qed.

Lemma ensure_reuses (st : State) :
  fst (token_still_valid st) = true ->
  ensure_token_available st =
  (true, (fst st, tick (snd (snd (token_still_valid st))))).
Proof.
  intros Hv. pose proof (token_still_valid_keeps_service st) as Hk.
  unfold ensure_token_available. unfold bind at 1.
  destruct (token_still_valid st) as [v [s1 w1]]. cbn [fst snd] in *.
  subst v s1. reflexivity.
Qed.

Lemma ensure_refetches (st : State) :
  fst (token_still_valid st) = false ->
  ensure_token_available st =
  refetch (fst st) (snd (snd (token_still_valid st))).
Proof.
  intros Hv. pose proof (token_still_valid_keeps_service st) as Hk.
  unfold ensure_token_available, refetch. unfold bind at 1.
  destruct (token_still_valid st) as [v [s1 w1]]. cbn [fst snd] in *.
  subst v s1. run.
  unfold forget_conversation.
  destruct (generate_direct_line_token _) as [r st']. reflexivity.
Qed.

(** Every call of [generate_direct_line_token] makes exactly one request,
    to the token endpoint. *)
Lemma generate_logs_request (st : State) :
  log (snd (snd (generate_direct_line_token st))) =
  log (snd st) ++ [Http (PostTokensGenerate (auth_header_value (fst st)))] /\
  calls (snd (snd (generate_direct_line_token st))) = S (calls (snd st)).
Proof.
  destruct st as [s w]. unfold generate_direct_line_token. run.
  destruct (server w (calls w)) as [msg|response]; [split; reflexivity|].
  destruct (status_code response =? 200); [|split; reflexivity].
  destruct (json response) as [token_data|]; [|split; reflexivity].
  destruct (Py.get token_data "token" JNull); [|split; reflexivity].
  destruct (Py.get token_data "expires_in" default_expires_in) as [expires_in|];
    [|split; reflexivity].
  destruct (Py.as_float expires_in); split; reflexivity.
Qed.

(** A successful fetch leaves no conversation and no watermark. *)
Lemma generate_success_resets (st : State) :
  token_success (fst (generate_direct_line_token st)) = true ->
  conversation_id (fst (snd (generate_direct_line_token st))) = JNull /\
  watermark (fst (snd (generate_direct_line_token st))) = JNull.
Proof.
  destruct st as [s w]. unfold generate_direct_line_token. run.
  destruct (server w (calls w)) as [msg|response]; [discriminate|].
  destruct (status_code response =? 200); [|discriminate].
  destruct (json response) as [token_data|]; [|discriminate].
  destruct (Py.get token_data "token" JNull); [|discriminate].
  destruct (Py.get token_data "expires_in" default_expires_in) as [expires_in|];
    [|discriminate].
  destruct (Py.as_float expires_in); [|discriminate].
  intros _. split; reflexivity.
Qed.

(** Whatever its outcome, a fetch never sets the conversation or the
    watermark to anything but what they were or [None]. *)
Lemma generate_keeps_absent (st : State) :
  conversation_id (fst st) = JNull ->
  watermark (fst st) = JNull ->
  conversation_id (fst (snd (generate_direct_line_token st))) = JNull /\
  watermark (fst (snd (generate_direct_line_token st))) = JNull.
Proof.
  destruct st as [s w]. cbn [fst]. intros Hc Hw.
  unfold generate_direct_line_token. run.
  destruct (server w (calls w)) as [msg|response]; [split; assumption|].
  destruct (status_code response =? 200); [|split; assumption].
  destruct (json response) as [token_data|]; [|split; assumption].
  destruct (Py.get token_data "token" JNull); [|split; assumption].
  destruct (Py.get token_data "expires_in" default_expires_in) as [expires_in|];
    [|split; assumption].
  destruct (Py.as_float expires_in); split; solve [reflexivity | assumption].
Qed.

(** What a 200 reply carrying a token and an integer [expires_in] that
    fits a float leaves in the session. *)
Lemma generate_stores_token (s : Service) (w : World) (body : string)
      (fields : list (string * Json)) (token : Json) (n lifetime : Z) :
  server w (calls w) = Responded (mkResponse 200 body (Some (JObj fields))) ->
  Py.lookup "token" fields = Some token ->
  Py.lookup "expires_in" fields = Some (JNum n) ->
  Py.to_float n = Ok lifetime ->
  fst (snd (generate_direct_line_token (s, w))) =
  mkService (auth_header_value s) token
            (Some (Py.float_add (clock w (ticks w)) lifetime)) JNull JNull.
Proof.
  intros Hr Ht He Hf. unfold generate_direct_line_token. run.
  rewrite Hr. cbn [status_code json Py.get]. rewrite Ht, He.
  unfold Py.as_float. cbn [Py.number try_bind]. rewrite Hf.
  reflexivity.
Qed.

Lemma refetch_logs_request (s : Service) (w : World) :
  log (snd (snd (refetch s w))) =
  log w ++ [Http (PostTokensGenerate (auth_header_value s))].
Proof.
  unfold refetch.
  pose proof (generate_logs_request (forget_conversation s, w)) as [Hl _].
  destruct (generate_direct_line_token _) as [r st]. exact Hl.
Qed.

(** C5. Token reuse against refresh.  Take a token fetch at time
    [fetched] (a clock reading, not negative) whose 200 reply carried a
    non-empty token and [expires_in = 3600]: it stores that token with
    the expiry [fetched + 3600].  Then for any session that holds that
    token and that expiry, whatever else it holds, and in any world: if
    the clock reads [fetched + 3000], [ensure_token_available] returns
    [True], leaves the session as it is and makes no request; if it reads
    [fetched + 3400], it takes the refetch path and posts to the token
    endpoint; and in general it reuses the token when
    [now < expiry - 300] and refetches otherwise. *)
Theorem token_reuse_vs_refresh (s : Service) (w0 : World) (body : string)
        (fields : list (string * Json)) (token : Json) :
  let fetched := clock w0 (ticks w0) in
  let cached := fst (snd (generate_direct_line_token (s, w0))) in
  let reused held w := ensure_token_available (held, w) =
                       (true, (held, tick (tick w))) in
  let refetched held w :=
    ensure_token_available (held, w) = refetch held (tick w) /\
    log (snd (snd (ensure_token_available (held, w)))) =
    log w ++ [Http (PostTokensGenerate (auth_header_value held))] in
  server w0 (calls w0) = Responded (mkResponse 200 body (Some (JObj fields))) ->
  Py.lookup "token" fields = Some token ->
  Py.truthy token = true ->
  Py.lookup "expires_in" fields = Some (JNum 3600) ->
  0 <= fetched ->
  current_token cached = token /\
  token_expires_at cached = Some (fetched + 3600) /\
  forall (held : Service) (w : World),
    current_token held = token ->
    token_expires_at held = Some (fetched + 3600) ->
    (clock w (ticks w) = fetched + 3000 -> reused held w) /\
    (clock w (ticks w) = fetched + 3400 -> refetched held w) /\
    (clock w (ticks w) < fetched + 3600 - 300 -> reused held w) /\
    (fetched + 3600 - 300 <= clock w (ticks w) -> refetched held w).
Proof.
  intros fetched cached reused refetched Hr Ht Htruthy He Hpos.
  assert (Hc : cached = mkService (auth_header_value s) token
                                  (Some (fetched + 3600)) JNull JNull).
  { apply (generate_stores_token s w0 body fields token 3600 3600 Hr Ht He).
    reflexivity. }
  clearbody cached.
  split; [rewrite Hc; reflexivity|].
  split; [rewrite Hc; reflexivity|].
  intros held w Htoken Hexpiry.
  assert (Hv : token_still_valid (held, w) =
               (clock w (ticks w) <? fetched + 3600 - safety_margin,
                (held, tick w))).
  { apply (token_still_valid_cached held w (fetched + 3600));
      [rewrite Htoken; exact Htruthy | exact Hexpiry | lia]. }
  assert (Hreuse : clock w (ticks w) < fetched + 3600 - 300 -> reused held w).
  { intros Hlt. unfold reused.
    rewrite ensure_reuses; rewrite Hv; cbn [fst snd]; [reflexivity|].
    apply Z.ltb_lt. exact Hlt. }
  assert (Hrefetch : fetched + 3600 - 300 <= clock w (ticks w) ->
                     refetched held w).
  { intros Hge. unfold refetched.
    assert (E : ensure_token_available (held, w) = refetch held (tick w)).
    { rewrite ensure_refetches; rewrite Hv; cbn [fst snd]; [reflexivity|].
      apply Z.ltb_ge. exact Hge. }
    split; [exact E|]. rewrite E, refetch_logs_request. reflexivity. }
  repeat split.
  - intros Hnow. apply Hreuse. lia.
  - apply Hrefetch. lia.
  - apply Hrefetch. lia.
  - exact Hreuse.
  - apply Hrefetch. assumption.
  - apply Hrefetch. assumption.
Qed.

Lemma token_reuse_vs_refresh_witness :
  let held :=
    mkService "Bearer secret" (JStr "tok") (Some 4600) (JStr "conv1") (JStr "7") in
  ensure_token_available (held, later 4000) =
  (true, (held, tick (tick (later 4000)))) /\
  log (snd (snd (ensure_token_available (held, later 4400)))) =
  log (later 4400) ++ [Http (PostTokensGenerate (auth_header_value held))].
Proof.
  intro held.
  destruct (token_reuse_vs_refresh fresh (world (frozen 1000) [token_reply])
              "{...}" [("token", JStr "tok"); ("expires_in", JNum 3600)]
              (JStr "tok") eq_refl eq_refl eq_refl eq_refl)
    as (_ & _ & H); [vm_compute; discriminate|].
  split.
  - destruct (H held (later 4000) eq_refl eq_refl) as [H1 _].
    exact (H1 eq_refl).
  - destruct (H held (later 4400) eq_refl eq_refl) as [_ [H2 _]].
    destruct (H2 eq_refl) as [_ Hlog]. exact Hlog.
Defined.

(** The refetch path ends with no conversation and no watermark, whether
    the fetch succeeds or not. *)
Lemma refetch_path_clears_scope (st : State) :
  fst (token_still_valid st) = false ->
  conversation_id (fst (snd (ensure_token_available st))) = JNull /\
  watermark (fst (snd (ensure_token_available st))) = JNull.
Proof.
  intros Hinvalid.
  rewrite ensure_refetches by exact Hinvalid. unfold refetch.
  pose proof (generate_keeps_absent
                (forget_conversation (fst st),
                 snd (snd (token_still_valid st)))
                eq_refl eq_refl) as H.
  destruct (generate_direct_line_token _) as [r st']. exact H.
Qed.



(** C9. The token refresh is not atomic: when no valid token is cached,
    [ensure_token_available] hands [generate_direct_line_token] a session
    whose conversation ID and watermark are already [None], so when the
    fetch fails and the method returns [False] the two stay discarded. *)
Theorem failed_refresh_discards_scope (st : State) :
  fst (token_still_valid st) = false ->
  fst (ensure_token_available st) = false ->
  (exists (reset : Service) (w : World),
      conversation_id reset = JNull /\ watermark reset = JNull /\
      ensure_token_available st =
      (token_success (fst (generate_direct_line_token (reset, w))),
       snd (generate_direct_line_token (reset, w)))) /\
  conversation_id (fst (snd (ensure_token_available st))) = JNull /\
  watermark (fst (snd (ensure_token_available st))) = JNull.
Proof.
  intros Hinvalid _. split.
  - exists (forget_conversation (fst st)), (snd (snd (token_still_valid st))).
    split; [reflexivity|]. split; [reflexivity|].
    rewrite ensure_refetches by exact Hinvalid. unfold refetch.
    destruct (generate_direct_line_token _) as [r st']. reflexivity.
  - apply refetch_path_clears_scope, Hinvalid.
Qed.

Lemma failed_refresh_discards_scope_witness :
  conversation_id (fst expired_refused) = JStr "conv1" /\
  watermark (fst expired_refused) = JStr "7" /\
  conversation_id (fst (snd (ensure_token_available expired_refused))) = JNull /\
  watermark (fst (snd (ensure_token_available expired_refused))) = JNull.
Proof.
  split; [reflexivity|]. split; [reflexivity|].
  apply (failed_refresh_discards_scope expired_refused);
    vm_compute; reflexivity.
Defined.

(** ** Polling *)

Lemma ensure_keeps_conversation (st : State) :
  fst (ensure_token_available st) = true ->
  Py.truthy (conversation_id (fst (snd (ensure_token_available st)))) = true ->
  fst (snd (ensure_token_available st)) = fst st.
Proof.
  intros Hok Hconv.
  destruct (fst (token_still_valid st)) eqn:Hv.
  - rewrite ensure_reuses by exact Hv. reflexivity.
  - destruct (refetch_path_clears_scope st Hv) as [Hc _].
    rewrite Hc in Hconv. discriminate.
Qed.

(** What a successful poll returns and leaves behind. *)
Lemma get_activities_ok (watermark_arg : Json) (st st' : State)
      (activities new_watermark : Json) (bot_responses : list Json) (total : Z) :
  get_activities watermark_arg st =
  (GetOk activities new_watermark bot_responses total, st') ->
  fst st' = (if Py.truthy new_watermark
             then set_watermark new_watermark (fst st) else fst st) /\
  read_activities activities = Ok (bot_responses, total).
Proof.
  unfold get_activities. unfold bind at 1.
  pose proof (ensure_keeps_conversation st) as Hkeep.
  destruct (ensure_token_available st) as [ok [s1 w1]]. cbn [fst snd] in Hkeep.
  destruct ok; cbn [negb]; [|discriminate].
  run.
  destruct (Py.truthy (conversation_id s1)) eqn:Hconv; cbn [negb];
    [|discriminate].
  rewrite <- (Hkeep eq_refl eq_refl). cbn [fst snd].
  destruct (server w1 (calls w1)) as [msg|response]; [discriminate|].
  destruct (status_code response =? 200); [|discriminate].
  destruct (json response) as [activities_data|]; [|discriminate].
  destruct (Py.get activities_data "activities" (JArr [])) as [acts|];
    [|discriminate].
  destruct (Py.get activities_data "watermark" JNull) as [mark|];
    [|discriminate].
  destruct (read_activities acts) as [[bots n]|] eqn:Hread;
    destruct (Py.truthy mark) eqn:Hmark; cbv beta iota; cbn [fst snd];
    try discriminate;
    intros H; injection H as <- <- <- <- <-; rewrite Hmark;
    (split; [reflexivity | exact Hread]).
Qed.

Lemma try_bind_ok {A B} (t : Try A) (k : A -> Try B) (b : B) :
  try_bind t k = Ok b -> exists a, t = Ok a /\ k a = Ok b.
Proof.
  destruct t as [a|e]; cbn; [|discriminate].
  intros H. exists a. split; [reflexivity | exact H].
Qed.

(** The test of lines 325-329 against the specification's wording, by
    what the "text" and the sender's "id" entries hold. *)
Lemma found_matches (text_entry id_entry : option Json) :
  (if Py.truthy match text_entry with Some v => v | None => JStr "" end then
     if Py.ne_str match id_entry with Some v => v | None => JStr "unknown" end
                  user_id
     then [match text_entry with Some v => v | None => JStr "" end]
     else []
   else []) =
  (if negb match id_entry with
           | Some (JStr id) => String.eqb id user_id
           | _ => false
           end
      && match text_entry with Some body => Py.truthy body | None => false end
   then [match text_entry with Some body => body | None => JStr "" end]
   else []).
Proof.
  destruct text_entry as [body|]; [destruct (Py.truthy body)|];
    destruct id_entry as [[| | | id | |]|]; cbn; try reflexivity;
    destruct (String.eqb id user_id); reflexivity.
Qed.

(** One activity adds its text when it is not the user's and has text. *)
Lemma scan_activity_spec (activity : Json) (found : list Json) :
  scan_activity activity = Ok found ->
  found = if negb (from_local_user activity) && has_text activity
          then [text_of activity] else [].
Proof.
  unfold scan_activity.
  destruct activity as [| | | | |fields]; try discriminate.
  cbn [Py.get try_bind].
  unfold from_local_user, sender_id, has_text, text_of. cbn [field].
  destruct (Py.lookup "from" fields) as [sender|] eqn:Hfrom.
  - destruct sender as [| | | | |sender_fields]; try discriminate.
    cbn [Py.get try_bind field].
    intros H. apply try_bind_ok in H as (_ & _ & H). injection H as <-.
    apply found_matches.
  - cbn [Py.get try_bind].
    intros H. apply try_bind_ok in H as (_ & _ & H). injection H as <-.
    apply (found_matches (Py.lookup "text" fields) None).
Qed.

Lemma scan_activities_spec (activities : list Json) :
  forall bot_responses,
    scan_activities activities = Ok bot_responses ->
    bot_responses = spec_bot_responses activities.
Proof.
  induction activities as [|activity rest IH]; intros bots H.
  - injection H as <-. reflexivity.
  - cbn [scan_activities] in H.
    apply try_bind_ok in H as (found & Hfound & H).
    apply try_bind_ok in H as (more & Hmore & H).
    injection H as <-.
    apply scan_activity_spec in Hfound. rewrite (IH more Hmore), Hfound.
    unfold spec_bot_responses. cbn [filter].
    destruct (negb (from_local_user activity) && has_text activity);
      reflexivity.
Qed.

(** A readable activity adds its text when it is not the user's and has
    text. *)
Lemma scan_activity_readable (activity : Json) :
  readable activity = true ->
  scan_activity activity =
  Ok (if negb (from_local_user activity) && has_text activity
      then [text_of activity] else []).
Proof.
  unfold readable, scan_activity.
  destruct activity as [| | | | |fields]; try discriminate.
  intros H. apply andb_true_iff in H as [Hfrom Hatt].
  cbn [Py.get try_bind].
  unfold from_local_user, sender_id, has_text, text_of. cbn [field].
  assert (Hlen : (if Py.truthy
                        match Py.lookup "attachments" fields with
                        | Some v => v
                        | None => JNull
                        end
                  then Py.len match Py.lookup "attachments" fields with
                              | Some v => v
                              | None => JNull
                              end
                  else Ok 0) <> Raise TypeError /\
                 exists n, (if Py.truthy
                                 match Py.lookup "attachments" fields with
                                 | Some v => v
                                 | None => JNull
                                 end
                            then Py.len match Py.lookup "attachments" fields with
                                        | Some v => v
                                        | None => JNull
                                        end
                            else Ok 0) = Ok n).
  { destruct (Py.lookup "attachments" fields) as [attachments|];
      cbn [Py.truthy].
    - destruct (Py.truthy attachments).
      + destruct (Py.len attachments) as [n|e]; [|discriminate].
        split; [discriminate | exists n; reflexivity].
      + split; [discriminate | exists 0; reflexivity].
    - split; [discriminate | exists 0; reflexivity]. }
  destruct Hlen as [_ [n Hn]]. rewrite Hn. cbn [try_bind].
  destruct (Py.lookup "from" fields) as [sender|].
  - destruct sender as [| | | | |sender_fields]; try discriminate.
    cbn [Py.get try_bind field]. f_equal. apply found_matches.
  - cbn [Py.get try_bind]. f_equal.
    apply (found_matches (Py.lookup "text" fields) None).
Qed.

Lemma scan_activities_readable (activities : list Json) :
  forallb readable activities = true ->
  scan_activities activities = Ok (spec_bot_responses activities).
Proof.
  induction activities as [|activity rest IH]; intros H.
  - reflexivity.
  - cbn [forallb] in H. apply andb_true_iff in H as [Hone Hrest].
    cbn [scan_activities]. rewrite (scan_activity_readable activity Hone).
    cbn [try_bind]. rewrite (IH Hrest). cbn [try_bind].
    unfold spec_bot_responses. cbn [filter].
    destruct (negb (from_local_user activity) && has_text activity);
      reflexivity.
Qed.

(** The validity test may read the clock; it touches nothing else. *)
Lemma token_still_valid_world (st : State) :
  snd (snd (token_still_valid st)) = snd st \/
  snd (snd (token_still_valid st)) = tick (snd st).
Proof.
  destruct st as [s w]. unfold token_still_valid. run.
  destruct (Py.truthy (current_token s)); [|left; reflexivity].
  destruct (token_expires_at s) as [e|]; [|left; reflexivity].
  destruct (e =? 0); [left | right]; reflexivity.
Qed.

(** What a poll makes of a 200 answer that is a JSON object, once it has
    got through to the server. *)
Lemma get_activities_reads_reply (watermark_arg : Json) (s : Service)
      (w : World) (response : Response) (fields : list (string * Json)) :
  fst (token_still_valid (s, w)) = true ->
  Py.truthy (conversation_id s) = true ->
  server w (calls w) = Responded response ->
  status_code response = 200 ->
  json response = Some (JObj fields) ->
  fst (get_activities watermark_arg (s, w)) =
  match read_activities match Py.lookup "activities" fields with
                        | Some v => v
                        | None => JArr []
                        end with
  | Ok (bot_responses, total) =>
      GetOk match Py.lookup "activities" fields with
            | Some v => v
            | None => JArr []
            end
            match Py.lookup "watermark" fields with
            | Some v => v
            | None => JNull
            end
            bot_responses total
  | Raise e => GetFail (GetError e) None
  end.
Proof.
  intros Hvalid Hconv Hreply Hstatus Hjson.
  unfold get_activities. unfold bind at 1.
  rewrite (ensure_reuses (s, w) Hvalid). cbn [fst negb].
  assert (Hsame : forall w', w' = w \/ w' = tick w ->
                             server (tick w') (calls (tick w')) = Responded response).
  { intros w' [-> | ->]; exact Hreply. }
  specialize (Hsame _ (token_still_valid_world (s, w))). cbn [snd] in Hsame.
  run. rewrite Hconv. cbn [negb fst snd]. rewrite Hsame, Hstatus, Hjson.
  cbn [Z.eqb Pos.eqb Py.get].
  set (mark := match Py.lookup "watermark" fields with
               | Some v => v
               | None => JNull
               end).
  set (acts := match Py.lookup "activities" fields with
               | Some v => v
               | None => JArr []
               end).
  destruct (Py.truthy mark); cbv beta iota; cbn [fst snd];
    destruct (read_activities acts) as [[bots n]|]; reflexivity.
Qed.

(** C7. Bot-response filtering.  Take a poll that gets through to the
    server and is answered 200 with a JSON object whose activity list is
    the array [items].  If every activity is readable, the poll succeeds
    and returns that array, the answer's watermark, the count of the
    array and, as [bot_responses], exactly the texts, in stream order, of
    the activities whose sender id is not [user123] and whose text is
    present and non-empty.  Whenever the poll succeeds its
    [bot_responses] are that list.  For the three activities of the
    example (user123 says hi, bot1 says hello, then welcome) the list is
    hello, welcome. *)
Theorem bot_response_filtering (watermark_arg : Json) (s : Service) (w : World)
        (response : Response) (fields : list (string * Json))
        (items : list Json) :
  let mark := match Py.lookup "watermark" fields with
              | Some v => v
              | None => JNull
              end in
  fst (token_still_valid (s, w)) = true ->
  Py.truthy (conversation_id s) = true ->
  server w (calls w) = Responded response ->
  status_code response = 200 ->
  json response = Some (JObj fields) ->
  match Py.lookup "activities" fields with
  | Some v => v
  | None => JArr []
  end = JArr items ->
  (forallb readable items = true ->
   fst (get_activities watermark_arg (s, w)) =
   GetOk (JArr items) mark (spec_bot_responses items)
         (Z.of_nat (List.length items))) /\
  (get_success (fst (get_activities watermark_arg (s, w))) = true ->
   bot_responses_of (fst (get_activities watermark_arg (s, w))) =
   spec_bot_responses items) /\
  spec_bot_responses greeting_activities = [JStr "hello"; JStr "welcome"].
Proof.
  intros mark Hvalid Hconv Hreply Hstatus Hjson Hitems.
  rewrite (get_activities_reads_reply watermark_arg s w response fields
             Hvalid Hconv Hreply Hstatus Hjson).
  rewrite Hitems. fold mark.
  unfold read_activities. cbn [Py.len Py.iter try_bind].
  split; [|split].
  - intros Hreadable. rewrite (scan_activities_readable items Hreadable).
    reflexivity.
  - destruct (scan_activities items) as [found|e] eqn:Hscan;
      cbn [try_bind get_success bot_responses_of]; [|discriminate].
    intros _. apply scan_activities_spec, Hscan.
  - vm_compute. reflexivity.
Qed.

Lemma bot_response_filtering_witness :
  fst (get_activities JNull
         (about_to_poll [activities_reply greeting_activities "3"])) =
  GetOk (JArr greeting_activities) (JStr "3")
        [JStr "hello"; JStr "welcome"] 3.
Proof.
  destruct (bot_response_filtering JNull
              (fst (about_to_poll [activities_reply greeting_activities "3"]))
              (snd (about_to_poll [activities_reply greeting_activities "3"]))
              (mkResponse 200 "{...}"
                 (Some (JObj [("activities", JArr greeting_activities);
                              ("watermark", JStr "3")])))
              [("activities", JArr greeting_activities);
               ("watermark", JStr "3")]
              greeting_activities
              eq_refl eq_refl eq_refl eq_refl eq_refl eq_refl)
    as [H _].
  exact (H eq_refl).
Defined.

(** A poll that gets through to the server and is answered 200 with a
    JSON object stores the answer's watermark when that is non-empty, and
    keeps the stored one otherwise. *)
Lemma get_activities_on_200 (watermark_arg : Json) (s : Service) (w : World)
      (response : Response) (fields : list (string * Json)) :
  fst (token_still_valid (s, w)) = true ->
  Py.truthy (conversation_id s) = true ->
  server w (calls w) = Responded response ->
  status_code response = 200 ->
  json response = Some (JObj fields) ->
  watermark (fst (snd (get_activities watermark_arg (s, w)))) =
  match Py.lookup "watermark" fields with
  | Some mark => if Py.truthy mark then mark else watermark s
  | None => watermark s
  end.
Proof.
  intros Hvalid Hconv Hreply Hstatus Hjson.
  unfold get_activities. unfold bind at 1.
  rewrite (ensure_reuses (s, w) Hvalid). cbn [fst negb].
  assert (Hsame : forall w', w' = w \/ w' = tick w ->
                             server (tick w') (calls (tick w')) = Responded response).
  { intros w' [-> | ->]; exact Hreply. }
  specialize (Hsame _ (token_still_valid_world (s, w))). cbn [snd] in Hsame.
  run. rewrite Hconv. cbn [negb fst snd]. rewrite Hsame, Hstatus, Hjson.
  cbn [Z.eqb Pos.eqb Py.get].
  destruct (Py.lookup "watermark" fields) as [mark|]; cbn [Py.truthy].
  - destruct (Py.truthy mark); cbv beta iota; cbn [fst snd];
      destruct (read_activities _) as [[bots n]|]; reflexivity.
  - cbv beta iota. cbn [fst snd].
    destruct (read_activities _) as [[bots n]|]; reflexivity.
Qed.

(** C8. Watermark replacement: after two successive successful polls of
    which the second answer carries a non-empty watermark, the stored
    watermark is the second answer's; and on any 200 answer the stored
    watermark is replaced exactly when the answer carries a non-empty
    watermark, and is left as it was otherwise. *)
Theorem watermark_replacement :
  (forall (first_arg second_arg : Json) (st0 st1 st2 : State)
          (activities1 mark1 activities2 mark2 : Json)
          (bots1 bots2 : list Json) (total1 total2 : Z),
      get_activities first_arg st0 = (GetOk activities1 mark1 bots1 total1, st1) ->
      get_activities second_arg st1 = (GetOk activities2 mark2 bots2 total2, st2) ->
      Py.truthy mark2 = true ->
      watermark (fst st2) = mark2) /\
  (forall (watermark_arg : Json) (s : Service) (w : World)
          (response : Response) (fields : list (string * Json)),
      fst (token_still_valid (s, w)) = true ->
      Py.truthy (conversation_id s) = true ->
      server w (calls w) = Responded response ->
      status_code response = 200 ->
      json response = Some (JObj fields) ->
      watermark (fst (snd (get_activities watermark_arg (s, w)))) =
      match Py.lookup "watermark" fields with
      | Some mark => if Py.truthy mark then mark else watermark s
      | None => watermark s
      end).
Proof.
  split.
  - intros first_arg second_arg st0 st1 st2 activities1 mark1 activities2 mark2
           bots1 bots2 total1 total2 _ Hsecond Hmark.
    apply get_activities_ok in Hsecond as [Hstate _].
    rewrite Hstate, Hmark. reflexivity.
  - exact get_activities_on_200.
Qed.

Lemma watermark_replacement_witness :
  watermark (fst (snd (get_activities JNull polled_twice))) = JStr "4" /\
  watermark (fst (snd (get_activities JNull
                         (snd (get_activities JNull polled_twice))))) =
  JStr "9".
Proof.
  split; [vm_compute; reflexivity|].
  apply (proj1 watermark_replacement JNull JNull polled_twice
               (snd (get_activities JNull polled_twice))
               (snd (get_activities JNull
                       (snd (get_activities JNull polled_twice))))
               (JArr []) (JStr "4") (JArr []) (JStr "9") [] [] 0 0);
    vm_compute; reflexivity.
Defined.

(** ** The watermark in the retry loop *)

(** Called without an argument, [get_activities] falls back on the stored
    watermark: the request carries it whenever one is stored. *)
Lemma default_poll_uses_stored_watermark (stored : Json) :
  Py.truthy stored = true ->
  watermark_query JNull stored = Some stored.
Proof.
  intros H. unfold watermark_query, Py.or. cbn [Py.truthy].
  rewrite H. reflexivity.
Qed.

(** C1. In the run where the first poll is answered with watermark 1 and
    no bot response, the events after the send are: wait, a poll of the
    whole conversation, wait, and a poll restricted by [?watermark=1] --
    the second attempt reads only the delta since the first. *)
Theorem second_poll_is_restricted_by_watermark :
  skipn 3 (log (snd (snd (send_and_get_response "hi" 2 5 reply_on_second)))) =
  [Slept 2;
   Http (GetActivities (JStr "conv1") None (JStr "tok"));
   Slept 2;
   Http (GetActivities (JStr "conv1") (Some (JStr "1")) (JStr "tok"))].
Proof. vm_compute. reflexivity. Qed.

(** * Further properties of the methods *)

(** ** Token generation *)

(** With a valid token the test reads the clock once and says yes. *)
Lemma token_valid_reads_clock (s : Service) (w : World) :
  fst (token_still_valid (s, w)) = true ->
  token_still_valid (s, w) = (true, (s, tick w)).
Proof.
  unfold token_still_valid. run.
  destruct (Py.truthy (current_token s)); [|discriminate].
  destruct (token_expires_at s) as [e|]; [|discriminate].
  destruct (e =? 0); [discriminate|].
  cbn [fst]. intros ->. reflexivity.
Qed.

Lemma ensure_valid (s : Service) (w : World) :
  fst (token_still_valid (s, w)) = true ->
  ensure_token_available (s, w) = (true, (s, tick (tick w))).
Proof.
  intros Hv. rewrite (ensure_reuses (s, w) Hv).
  rewrite (token_valid_reads_clock s w Hv). reflexivity.
Qed.

(** Without a token, without an expiry, or with an expiry of zero, the
    test says no and does not look at the clock. *)
Lemma token_still_valid_unset (s : Service) (w : World) :
  Py.truthy (current_token s) = false \/
  token_expires_at s = None \/
  token_expires_at s = Some 0 ->
  token_still_valid (s, w) = (false, (s, w)).
Proof.
  unfold token_still_valid. run.
  intros [H | [H | H]].
  - rewrite H. reflexivity.
  - rewrite H. destruct (Py.truthy (current_token s)); reflexivity.
  - rewrite H. destruct (Py.truthy (current_token s)); reflexivity.
Qed.

(** X1. A 200 reply of the token endpoint that has no "expires_in" entry
    is given the default lifetime: the stored expiry is the clock reading
    plus 3600, the result reports 3600, and the conversation and the
    watermark are cleared. *)
Theorem missing_expires_in_defaults (s : Service) (w : World) (body : string)
        (fields : list (string * Json)) :
  let token := match Py.lookup "token" fields with
               | Some v => v
               | None => JNull
               end in
  server w (calls w) = Responded (mkResponse 200 body (Some (JObj fields))) ->
  Py.lookup "expires_in" fields = None ->
  generate_direct_line_token (s, w) =
  (TokenOk token (JNum 3600),
   (mkService (auth_header_value s) token (Some (clock w (ticks w) + 3600))
              JNull JNull,
    mkWorld (clock w) (S (ticks w)) (server w) (S (calls w))
            (log w ++ [Http (PostTokensGenerate (auth_header_value s))]))).
Proof.
  intros token Hr He. unfold generate_direct_line_token. run.
  rewrite Hr. cbn [status_code json Py.get Z.eqb Pos.eqb]. rewrite He.
  reflexivity.
Qed.

Lemma missing_expires_in_defaults_witness :
  token_expires_at
    (fst (snd (generate_direct_line_token
                 (fresh, world (frozen 1000) [no_expiry_reply])))) =
  Some 4600.
Proof.
  rewrite (missing_expires_in_defaults fresh
             (world (frozen 1000) [no_expiry_reply]) "{...}"
             [("token", JStr "tok")] eq_refl eq_refl).
  reflexivity.
Defined.

(** X2. A token fetch that fails (transport error, status other than 200,
    undecodable or ill-typed body) changes neither the stored expiry nor
    the conversation ID nor the watermark. *)
Theorem failed_fetch_keeps_session (st : State) :
  token_success (fst (generate_direct_line_token st)) = false ->
  let after := fst (snd (generate_direct_line_token st)) in
  token_expires_at after = token_expires_at (fst st) /\
  conversation_id after = conversation_id (fst st) /\
  watermark after = watermark (fst st) /\
  auth_header_value after = auth_header_value (fst st).
Proof.
  destruct st as [s w]. unfold generate_direct_line_token. run.
  destruct (server w (calls w)) as [msg|response]; [repeat split|].
  destruct (status_code response =? 200); [|repeat split].
  destruct (json response) as [token_data|]; [|repeat split].
  destruct (Py.get token_data "token" JNull); [|repeat split].
  destruct (Py.get token_data "expires_in" default_expires_in) as [expires_in|];
    [|repeat split].
  destruct (Py.as_float expires_in); [discriminate | repeat split].
Qed.

Lemma failed_fetch_keeps_session_witness :
  let after := fst (snd (generate_direct_line_token expired_refused)) in
  token_expires_at after = Some 4600 /\
  conversation_id after = JStr "conv1" /\
  watermark after = JStr "7" /\
  auth_header_value after = "Bearer secret".
Proof.
  apply (failed_fetch_keeps_session expired_refused).
  vm_compute. reflexivity.
Defined.

(** X3. When the reply's "expires_in" is not a number, the fetch is
    reported as failed with the [TypeError] of the addition, yet the
    reply's token has already replaced the stored one; expiry,
    conversation and watermark stay as they were. *)
Theorem bad_expires_in_stores_token (s : Service) (w : World) (body : string)
        (fields : list (string * Json)) (token lifetime : Json) (e : Exn) :
  server w (calls w) = Responded (mkResponse 200 body (Some (JObj fields))) ->
  Py.lookup "token" fields = Some token ->
  Py.lookup "expires_in" fields = Some lifetime ->
  Py.number lifetime = Raise e ->
  generate_direct_line_token (s, w) =
  (TokenFail (TokenGenerationError e),
   (set_current_token token s,
    mkWorld (clock w) (S (ticks w)) (server w) (S (calls w))
            (log w ++ [Http (PostTokensGenerate (auth_header_value s))]))).
Proof.
  intros Hr Ht Hl He. unfold generate_direct_line_token. run.
  rewrite Hr. cbn [status_code json Py.get Z.eqb Pos.eqb]. rewrite Ht, Hl.
  unfold Py.as_float. rewrite He. reflexivity.
Qed.

Lemma bad_expires_in_stores_token_witness :
  let after :=
    fst (snd (generate_direct_line_token
                (in_conversation, world (frozen 5000) [bad_expiry_reply]))) in
  current_token after = JStr "new" /\ token_expires_at after = Some 4600.
Proof.
  cbv zeta.
  rewrite (bad_expires_in_stores_token in_conversation
             (world (frozen 5000) [bad_expiry_reply]) "{...}"
             [("token", JStr "new"); ("expires_in", JStr "soon")]
             (JStr "new") (JStr "soon") TypeError
             eq_refl eq_refl eq_refl eq_refl).
  split; reflexivity.
Defined.

(** X4. A session without a token, without an expiry, or with a stored
    expiry of exactly zero never reuses: [ensure_token_available] goes
    straight to the refetch path, without reading the clock. *)
Theorem unset_token_always_refetches (s : Service) (w : World) :
  Py.truthy (current_token s) = false \/
  token_expires_at s = None \/
  token_expires_at s = Some 0 ->
  ensure_token_available (s, w) = refetch s w.
Proof.
  intros H. pose proof (token_still_valid_unset s w H) as Hv.
  rewrite ensure_refetches; rewrite Hv; reflexivity.
Qed.

Lemma unset_token_always_refetches_witness :
  ensure_token_available
    (mkService "Bearer secret" (JStr "tok") (Some 0) JNull JNull,
     world (frozen (-1000)) [token_reply]) =
  refetch (mkService "Bearer secret" (JStr "tok") (Some 0) JNull JNull)
          (world (frozen (-1000)) [token_reply]).
Proof.
  apply unset_token_always_refetches. right. right. reflexivity.
Defined.

(** X5. A 200 reply without a "token" entry is accepted: when its
    lifetime is usable (absent, or a number that fits a float), the fetch
    reports success with token [None], and from the session it leaves
    every later [ensure_token_available] fetches again, whatever the clock
    reads. *)
Theorem tokenless_reply_is_accepted (s : Service) (w : World) (body : string)
        (fields : list (string * Json)) (n : Z) :
  let lifetime := match Py.lookup "expires_in" fields with
                  | Some v => v
                  | None => default_expires_in
                  end in
  let after := fst (snd (generate_direct_line_token (s, w))) in
  server w (calls w) = Responded (mkResponse 200 body (Some (JObj fields))) ->
  Py.lookup "token" fields = None ->
  Py.as_float lifetime = Ok n ->
  fst (generate_direct_line_token (s, w)) = TokenOk JNull lifetime /\
  current_token after = JNull /\
  forall w' : World, ensure_token_available (after, w') = refetch after w'.
Proof.
  intros lifetime after Hr Ht Hn.
  assert (E : generate_direct_line_token (s, w) =
              (TokenOk JNull lifetime,
               (mkService (auth_header_value s) JNull
                          (Some (Py.float_add (clock w (ticks w)) n)) JNull JNull,
                mkWorld (clock w) (S (ticks w)) (server w) (S (calls w))
                        (log w ++ [Http (PostTokensGenerate
                                           (auth_header_value s))])))).
  { unfold generate_direct_line_token. run.
    rewrite Hr. cbn [status_code json Z.eqb Pos.eqb Py.get].
    rewrite Ht. fold lifetime. rewrite Hn. reflexivity. }
  unfold after. rewrite E. cbn [fst snd].
  split; [reflexivity|]. split; [reflexivity|].
  intros w'. pose proof (token_still_valid_unset
                           (mkService (auth_header_value s) JNull
                                      (Some (Py.float_add (clock w (ticks w)) n)) JNull JNull)
                           w' (or_introl eq_refl)) as Hv.
  rewrite ensure_refetches; rewrite Hv; reflexivity.
Qed.

Lemma tokenless_reply_is_accepted_witness :
  fst (generate_direct_line_token
         (fresh, world (frozen 1000) [tokenless_reply])) =
  TokenOk JNull (JNum 3600).
Proof.
  apply (tokenless_reply_is_accepted fresh
           (world (frozen 1000) [tokenless_reply]) "{...}"
           [("expires_in", JNum 3600)] 3600 eq_refl eq_refl eq_refl).
Defined.

(** On the refetch path exactly one request is made, to the token
    endpoint. *)
Lemma ensure_requests_log (s : Service) (w : World) :
  fst (token_still_valid (s, w)) = false ->
  calls (snd (snd (ensure_token_available (s, w)))) = S (calls w) /\
  log (snd (snd (ensure_token_available (s, w)))) =
  log w ++ [Http (PostTokensGenerate (auth_header_value s))].
Proof.
  intros Hv. rewrite (ensure_refetches (s, w) Hv). unfold refetch. cbn [fst].
  pose proof (generate_logs_request
                (forget_conversation s, snd (snd (token_still_valid (s, w)))))
    as [Hl Hc].
  destruct (generate_direct_line_token _) as [r st']. cbn [fst snd] in *.
  rewrite Hl, Hc.
  destruct (token_still_valid_world (s, w)) as [-> | ->]; split; reflexivity.
Qed.

(** X6. [ensure_token_available] sends a request exactly when its validity
    test fails, and then exactly one, to the token endpoint; with a valid
    token it returns [True] and leaves session, request count and log as
    they are. *)
Theorem ensure_requests_only_when_invalid (s : Service) (w : World) :
  let after := snd (ensure_token_available (s, w)) in
  (fst (token_still_valid (s, w)) = true ->
   ensure_token_available (s, w) = (true, (s, tick (tick w)))) /\
  (fst (token_still_valid (s, w)) = false ->
   calls (snd after) = S (calls w) /\
   log (snd after) =
   log w ++ [Http (PostTokensGenerate (auth_header_value s))]).
Proof.
  cbv zeta. split; intros Hv.
  - apply ensure_valid, Hv.
  - apply ensure_requests_log, Hv.
Qed.

Lemma ensure_requests_only_when_invalid_witness :
  log (snd (snd (ensure_token_available expired_renewed))) =
  [Http (PostTokensGenerate "Bearer secret")].
Proof.
  destruct (ensure_requests_only_when_invalid
              (fst expired_renewed) (snd expired_renewed)) as [_ H].
  destruct H as [_ H]; [vm_compute; reflexivity | exact H].
Defined.

(** ** Starting a conversation and sending *)

(** After [ensure_token_available] the conversation is the one there was,
    or none. *)
Lemma ensure_conversation (st : State) :
  fst (snd (ensure_token_available st)) = fst st \/
  (conversation_id (fst (snd (ensure_token_available st))) = JNull /\
   watermark (fst (snd (ensure_token_available st))) = JNull).
Proof.
  destruct (fst (token_still_valid st)) eqn:Hv.
  - left. rewrite ensure_reuses by exact Hv. reflexivity.
  - right. apply refetch_path_clears_scope, Hv.
Qed.

(** What a successful [start_conversation] returns and leaves behind. *)
Lemma start_conversation_ok (st st' : State) (conversation data : Json) :
  start_conversation st = (StartOk conversation data, st') ->
  conversation_id (fst st') = conversation /\
  Py.truthy conversation = true /\
  watermark (fst st') = JNull /\
  Py.get data "conversationId" JNull = Ok conversation /\
  exists earlier,
    log (snd st') =
    earlier ++ [Http (PostConversations (current_token (fst st')))].
Proof.
  unfold start_conversation. unfold bind at 1.
  destruct (ensure_token_available st) as [ok [s1 w1]].
  destruct ok; cbn [negb]; [|discriminate].
  run. cbn [fst snd].
  destruct (server w1 (calls w1)) as [msg|response]; [discriminate|].
  destruct (status_in [200; 201] response); [|discriminate].
  destruct (json response) as [conversation_data|]; [|discriminate].
  destruct (Py.get conversation_data "conversationId" JNull)
    as [new_conversation_id|] eqn:Hget; [|discriminate].
  destruct (Py.truthy new_conversation_id) eqn:Hid; [|discriminate].
  cbv beta iota. cbn [fst snd].
  intros H. injection H as <- <- <-. cbn [fst snd].
  repeat split; try assumption.
  exists (log w1). reflexivity.
Qed.

(** The part of [send_message] after the conversation is secured always
    makes one request, the post of the activity, and leaves the session
    alone. *)
Lemma post_message_run (message : string) (s : Service) (w : World) :
  snd (post_message message (s, w)) =
  (s, mkWorld (clock w) (S (ticks w)) (server w) (S (calls w))
              (log w ++ [Http (PostActivities
                                 (conversation_id s) (current_token s)
                                 (message_activity message (clock w (ticks w))))])).
Proof.
  unfold post_message. run_world.
  destruct (server w (calls w)) as [msg|response]; [reflexivity|].
  destruct (status_in [200; 201; 202] response); [|reflexivity].
  destruct (String.eqb (text response) ""); [reflexivity|].
  destruct (json response); reflexivity.
Qed.

Lemma post_message_ok (message : string) (s : Service) (w : World)
      (status : Z) (response conversation : Json) (activity : Activity) :
  fst (post_message message (s, w)) =
  SendOk status response conversation activity ->
  conversation = conversation_id s /\
  activity = message_activity message (clock w (ticks w)).
Proof.
  unfold post_message. run_world.
  destruct (server w (calls w)) as [msg|reply]; [discriminate|].
  destruct (status_in [200; 201; 202] reply); [|discriminate].
  destruct (String.eqb (text reply) "").
  - cbn [fst]. intros H. injection H as _ _ <- <-. split; reflexivity.
  - destruct (json reply); [|discriminate].
    cbn [fst]. intros H. injection H as _ _ <- <-. split; reflexivity.
Qed.

(** X7. When [start_conversation] succeeds, the session holds the
    conversation ID the server named (a non-empty value, the one the
    result carries), the watermark is cleared, and the last request made
    is the conversation post, authorized with the session's token. *)
Theorem started_conversation_is_stored (st st' : State)
        (conversation data : Json) :
  start_conversation st = (StartOk conversation data, st') ->
  conversation_id (fst st') = conversation /\
  Py.truthy conversation = true /\
  watermark (fst st') = JNull /\
  Py.get data "conversationId" JNull = Ok conversation /\
  exists earlier,
    log (snd st') =
    earlier ++ [Http (PostConversations (current_token (fst st')))].
Proof.
  unfold start_conversation. unfold bind at 1.
  destruct (ensure_token_available st) as [ok [s1 w1]].
  destruct ok; cbn [negb]; [|discriminate].
  run. cbn [fst snd].
  destruct (server w1 (calls w1)) as [msg|response]; [discriminate|].
  destruct (status_in [200; 201] response); [|discriminate].
  destruct (json response) as [conversation_data|]; [|discriminate].
  destruct (Py.get conversation_data "conversationId" JNull)
    as [new_conversation_id|] eqn:Hget; [|discriminate].
  destruct (Py.truthy new_conversation_id) eqn:Hid; [|discriminate].
  cbv beta iota. cbn [fst snd].
  intros H. injection H as <- <- <-. cbn [fst snd].
  repeat split; try assumption.
  exists (log w1). reflexivity.
Qed.

Lemma started_conversation_is_stored_witness :
  conversation_id
    (fst (snd (start_conversation
                 (in_conversation, world (frozen 1000) [conversation_reply])))) =
  JStr "conv1" /\
  watermark
    (fst (snd (start_conversation
                 (in_conversation, world (frozen 1000) [conversation_reply])))) =
  JNull.
Proof.
  destruct (started_conversation_is_stored
              (in_conversation, world (frozen 1000) [conversation_reply])
              (snd (start_conversation
                      (in_conversation,
                       world (frozen 1000) [conversation_reply])))
              (JStr "conv1") (JObj [("conversationId", JStr "conv1")]))
    as (H1 & _ & H2 & _).
  - vm_compute. reflexivity.
  - split; [exact H1 | exact H2].
Defined.

(** X8. With a valid token, a 200 or 201 reply whose JSON object has no
    "conversationId", or an empty one, makes [start_conversation] fail
    with the missing-id error and leaves the session as it was. *)
Theorem nameless_conversation_is_refused (s : Service) (w : World)
        (response : Response) (fields : list (string * Json)) :
  let named := match Py.lookup "conversationId" fields with
               | Some v => v
               | None => JNull
               end in
  fst (token_still_valid (s, w)) = true ->
  server w (calls w) = Responded response ->
  status_in [200; 201] response = true ->
  json response = Some (JObj fields) ->
  Py.truthy named = false ->
  fst (start_conversation (s, w)) = StartFail ConversationIdMissing /\
  fst (snd (start_conversation (s, w))) = s.
Proof.
  intros named Hv Hr Hs Hj Hn.
  assert (E : start_conversation (s, w) =
              (StartFail ConversationIdMissing,
               (s, mkWorld (clock w) (S (S (ticks w))) (server w) (S (calls w))
                           (log w ++ [Http (PostConversations
                                              (current_token s))])))).
  { unfold start_conversation. unfold bind at 1.
    rewrite (ensure_valid s w Hv). cbn [negb]. run_world.
    rewrite Hr, Hs, Hj. cbn [Py.get]. fold named. rewrite Hn. reflexivity. }
  rewrite E. split; reflexivity.
Qed.

Lemma nameless_conversation_is_refused_witness :
  fst (start_conversation
         (with_token, world (frozen 1000) [nameless_conversation_reply])) =
  StartFail ConversationIdMissing.
Proof.
  apply (nameless_conversation_is_refused with_token
           (world (frozen 1000) [nameless_conversation_reply])
           (mkResponse 200 "{...}"
                       (Some (JObj [("streamUrl", JStr "wss://directline")])))
           [("streamUrl", JStr "wss://directline")]);
    reflexivity.
Defined.

(** X9. When no token can be had, each of [start_conversation],
    [send_message] and [get_activities] stops with the token error in the
    state the token attempt left, and the one request made on the way is
    the refused token request: none of them goes on to its own request. *)
Theorem no_token_no_request (message : string) (watermark_arg : Json)
        (st : State) :
  fst (ensure_token_available st) = false ->
  start_conversation st =
  (StartFail TokenUnavailable, snd (ensure_token_available st)) /\
  send_message message st =
  (SendFail TokenUnavailable None, snd (ensure_token_available st)) /\
  get_activities watermark_arg st =
  (GetFail TokenUnavailable None, snd (ensure_token_available st)) /\
  log (snd (snd (ensure_token_available st))) =
  log (snd st) ++ [Http (PostTokensGenerate (auth_header_value (fst st)))].
Proof.
  intros H. split; [|split; [|split]].
  - unfold start_conversation, bind.
    destruct (ensure_token_available st) as [ok st1]. cbn [fst snd] in *.
    subst ok. reflexivity.
  - unfold send_message, bind.
    destruct (ensure_token_available st) as [ok st1]. cbn [fst snd] in *.
    subst ok. reflexivity.
  - unfold get_activities, bind.
    destruct (ensure_token_available st) as [ok st1]. cbn [fst snd] in *.
    subst ok. reflexivity.
  - destruct st as [s w]. cbn [fst snd]. apply ensure_requests_log.
    destruct (fst (token_still_valid (s, w))) eqn:Hv; [|reflexivity].
    rewrite (ensure_valid s w Hv) in H. discriminate.
Qed.

Lemma no_token_no_request_witness :
  log (snd (snd (send_message "hi" expired_refused))) =
  [Http (PostTokensGenerate "Bearer secret")].
Proof.
  destruct (no_token_no_request "hi" JNull expired_refused) as (_ & H & _ & L).
  - vm_compute. reflexivity.
  - rewrite H. cbn [snd]. rewrite L. reflexivity.
Defined.

(** X10. With a valid token and a conversation in place, [send_message]
    makes exactly one request: the post of the message activity (type
    message, from user123, the given text) to that conversation with that
    token; the session is left as it was. *)
Theorem send_in_conversation (message : string) (s : Service) (w : World) :
  fst (token_still_valid (s, w)) = true ->
  Py.truthy (conversation_id s) = true ->
  snd (send_message message (s, w)) =
  (s, mkWorld (clock w) (S (S (S (ticks w)))) (server w) (S (calls w))
              (log w ++
               [Http (PostActivities
                        (conversation_id s) (current_token s)
                        (message_activity message
                                          (clock w (S (S (ticks w))))))])).
Proof.
  intros Hv Hc. unfold send_message. unfold bind at 1.
  rewrite (ensure_valid s w Hv). cbn [negb].
  unfold bind at 1, self. cbn [fst snd]. rewrite Hc. cbn [negb].
  rewrite post_message_run. reflexivity.
Qed.

Lemma send_in_conversation_witness :
  log (snd (snd (send_message "hi"
                   (in_conversation, world (frozen 1000) [sent_reply])))) =
  [Http (PostActivities (JStr "conv1") (JStr "tok")
                        (message_activity "hi" 1000))].
Proof.
  rewrite (send_in_conversation "hi" in_conversation
             (world (frozen 1000) [sent_reply]) eq_refl eq_refl).
  reflexivity.
Defined.

(** X11. Lazy conversation start: with a token that is valid at both
    checks and no conversation, when the conversation post is answered
    200 or 201 with a non-empty "conversationId", [send_message] makes
    exactly two requests, the conversation post and then the activity
    post to the new conversation, and the session holds the new
    conversation ID. *)
Theorem lazy_conversation_start (message : string) (s : Service) (w : World)
        (response : Response) (fields : list (string * Json))
        (conversation : Json) :
  fst (token_still_valid (s, w)) = true ->
  fst (token_still_valid (s, tick (tick w))) = true ->
  Py.truthy (conversation_id s) = false ->
  server w (calls w) = Responded response ->
  status_in [200; 201] response = true ->
  json response = Some (JObj fields) ->
  Py.lookup "conversationId" fields = Some conversation ->
  Py.truthy conversation = true ->
  let after := snd (send_message message (s, w)) in
  conversation_id (fst after) = conversation /\
  calls (snd after) = S (S (calls w)) /\
  log (snd after) =
  log w ++
  [Http (PostConversations (current_token s));
   Http (PostActivities conversation (current_token s)
                        (message_activity message
                                          (clock w (S (S (S (S (ticks w))))))))].
Proof.
  intros Hv Hv2 Hc Hr Hs Hj Hl Ht after.
  assert (E : start_conversation (s, tick (tick w)) =
              (StartOk conversation (JObj fields),
               (set_watermark JNull (set_conversation_id conversation s),
                mkWorld (clock w) (S (S (S (S (ticks w))))) (server w)
                        (S (calls w))
                        (log w ++ [Http (PostConversations (current_token s))])))).
  { unfold start_conversation. unfold bind at 1.
    rewrite (ensure_valid s (tick (tick w)) Hv2). cbn [negb]. run_world.
    rewrite Hr, Hs, Hj. cbn [Py.get]. rewrite Hl, Ht. reflexivity. }
  assert (Eafter : after =
                   snd (post_message message
                          (set_watermark JNull (set_conversation_id conversation s),
                           mkWorld (clock w) (S (S (S (S (ticks w))))) (server w)
                                   (S (calls w))
                                   (log w ++ [Http (PostConversations
                                                      (current_token s))])))).
  { unfold after, send_message. unfold bind at 1.
    rewrite (ensure_valid s w Hv). cbn [negb].
    unfold bind at 1, self. cbn [fst snd]. rewrite Hc. cbn [negb].
    unfold bind at 1. rewrite E. reflexivity. }
  rewrite Eafter, post_message_run. cbn [fst snd calls log clock ticks].
  rewrite <- app_assoc. repeat split.
Qed.

Lemma lazy_conversation_start_witness :
  log (snd (snd (send_message "hi"
                   (with_token,
                    world (frozen 1000) [conversation_reply; sent_reply])))) =
  [Http (PostConversations (JStr "tok"));
   Http (PostActivities (JStr "conv1") (JStr "tok")
                        (message_activity "hi" 1000))].
Proof.
  destruct (lazy_conversation_start "hi" with_token
              (world (frozen 1000) [conversation_reply; sent_reply])
              (mkResponse 201 "{...}"
                          (Some (JObj [("conversationId", JStr "conv1")])))
              [("conversationId", JStr "conv1")] (JStr "conv1")
              eq_refl eq_refl eq_refl eq_refl eq_refl eq_refl eq_refl eq_refl)
    as (_ & _ & H).
  exact H.
Defined.

(** X12. Whenever [send_message] reports success, the activity went to a
    non-empty conversation ID, the one the session holds afterwards and
    the result names; it carries the given text and the fixed user id
    user123, and its post, authorized with the session's token, is the
    last request made. *)
Theorem sent_message_has_conversation (message : string) (st st' : State)
        (status : Z) (response conversation : Json) (activity : Activity) :
  send_message message st =
  (SendOk status response conversation activity, st') ->
  Py.truthy conversation = true /\
  conversation_id (fst st') = conversation /\
  act_text activity = message /\
  act_from_id activity = user_id /\
  exists earlier,
    log (snd st') =
    earlier ++ [Http (PostActivities conversation (current_token (fst st'))
                                     activity)].
Proof.
  unfold send_message. unfold bind at 1.
  destruct (ensure_token_available st) as [ok [s1 w1]].
  destruct ok; cbn [negb]; [|discriminate].
  unfold bind at 1, self. cbn [fst snd].
  destruct (Py.truthy (conversation_id s1)) eqn:Hconv; cbn [negb].
  - intros H.
    pose proof (post_message_run message s1 w1) as Hrun.
    pose proof (post_message_ok message s1 w1 status response conversation
                                activity) as Hok.
    rewrite H in Hrun, Hok. cbn [fst snd] in Hrun, Hok.
    destruct (Hok eq_refl) as [-> ->]. subst st'. cbn [fst snd].
    repeat split; try assumption.
    exists (log w1). reflexivity.
  - unfold bind at 1.
    destruct (start_conversation (s1, w1)) as [started [s2 w2]] eqn:Hstart.
    destruct started as [new_conversation data|err]; cbn [start_success negb];
      [|discriminate].
    apply start_conversation_ok in Hstart as (Hid & Htruthy & _).
    cbn [fst] in Hid.
    intros H.
    pose proof (post_message_run message s2 w2) as Hrun.
    pose proof (post_message_ok message s2 w2 status response conversation
                                activity) as Hok.
    rewrite H in Hrun, Hok. cbn [fst snd] in Hrun, Hok.
    destruct (Hok eq_refl) as [-> ->]. subst st'. cbn [fst snd].
    rewrite Hid. repeat split; try assumption.
    exists (log w2). reflexivity.
Qed.

Lemma sent_message_has_conversation_witness :
  conversation_id (fst (snd (send_message "hi" sent_only))) = JStr "conv1".
Proof.
  destruct (sent_message_has_conversation "hi" sent_only
              (snd (send_message "hi" sent_only))
              200 (JObj [("id", JStr "conv1|0000001")]) (JStr "conv1")
              (message_activity "hi" 1000))
    as (_ & H & _).
  - vm_compute. reflexivity.
  - exact H.
Defined.

(** ** Polling: what it needs, what it sends, what it changes *)

(** Without a conversation, or without a valid token (the refresh discards
    the conversation), a poll stops before its request. *)
Lemma get_activities_unavailable (watermark_arg : Json) (st : State) :
  Py.truthy (conversation_id (fst st)) = false \/
  fst (token_still_valid st) = false ->
  get_success (fst (get_activities watermark_arg st)) = false /\
  snd (get_activities watermark_arg st) = snd (ensure_token_available st) /\
  Py.truthy (conversation_id (fst (snd (get_activities watermark_arg st)))) =
  false.
Proof.
  intros H.
  assert (Hc : Py.truthy (conversation_id
                            (fst (snd (ensure_token_available st)))) = false).
  { destruct H as [H | H].
    - destruct (ensure_conversation st) as [-> | [-> _]];
        [exact H | reflexivity].
    - destruct (refetch_path_clears_scope st H) as [-> _]. reflexivity. }
  unfold get_activities, bind.
  destruct (ensure_token_available st) as [ok [s1 w1]]. cbn [fst snd] in *.
  destruct ok; cbn [negb]; unfold self, ret; cbn [fst snd].
  - rewrite Hc. cbn [negb fst snd get_success]. repeat split. exact Hc.
  - repeat split. exact Hc.
Qed.

Lemma sleep_run (wait_time : Z) (s : Service) (w : World) :
  0 <= wait_time <= sleep_limit ->
  snd (sleep wait_time (s, w)) =
  (s, mkWorld (clock w) (ticks w) (server w) (calls w)
              (log w ++ [Slept wait_time])).
Proof.
  intros Hw. unfold sleep.
  destruct (Z.ltb_spec wait_time (- sleep_limit));
    [unfold sleep_limit in *; lia|].
  destruct (Z.ltb_spec sleep_limit wait_time); [lia|].
  destruct (Z.ltb_spec wait_time 0); [lia | reflexivity].
Qed.

(** The validity test looks at the session and the clock only. *)
Lemma token_still_valid_same_clock (s : Service) (w w' : World) :
  clock w' = clock w ->
  ticks w' = ticks w ->
  fst (token_still_valid (s, w')) = fst (token_still_valid (s, w)).
Proof.
  intros Hc Ht. unfold token_still_valid. run_world.
  destruct (Py.truthy (current_token s)); [|reflexivity].
  destruct (token_expires_at s) as [e|]; [|reflexivity].
  destruct (e =? 0); [reflexivity|].
  cbn [fst snd]. rewrite Hc, Ht. reflexivity.
Qed.

Lemma attempt_unavailable (wait_time : Z) (st : State) :
  0 <= wait_time <= sleep_limit ->
  Py.truthy (conversation_id (fst st)) = false \/
  fst (token_still_valid st) = false ->
  has_reply (fst (attempt wait_time st)) = false /\
  Py.truthy (conversation_id (fst (snd (attempt wait_time st)))) = false.
Proof.
  intros Hw H. destruct st as [s w]. unfold attempt.
  rewrite (sleep_run wait_time s w Hw).
  destruct (get_activities_unavailable JNull
              (s, mkWorld (clock w) (ticks w) (server w) (calls w)
                          (log w ++ [Slept wait_time])))
    as (Hfail & _ & Hconv).
  - destruct H as [H | H]; [left; exact H | right].
    rewrite <- H. apply token_still_valid_same_clock; reflexivity.
  - split; [|exact Hconv].
    unfold has_reply. rewrite Hfail. reflexivity.
Qed.

Lemma no_reply_when_unavailable (wait_time : Z) (k : nat) :
  0 <= wait_time <= sleep_limit ->
  forall st : State,
    Py.truthy (conversation_id (fst st)) = false \/
    fst (token_still_valid st) = false ->
    has_reply (attempt_result wait_time k st) = false.
Proof.
  intros Hw. induction k as [|k IH]; intros st H.
  - apply (attempt_unavailable wait_time st Hw H).
  - change (attempt_result wait_time (S k) st)
      with (attempt_result wait_time k (snd (attempt wait_time st))).
    apply IH. left. apply (attempt_unavailable wait_time st Hw H).
Qed.

Lemma after_attempts_add (wait_time : Z) (k j : nat) (st : State) :
  after_attempts wait_time (k + j) st =
  after_attempts wait_time j (after_attempts wait_time k st).
Proof.
  revert st. induction k as [|k IH]; intros st.
  - reflexivity.
  - cbn [Nat.add after_attempts]. apply IH.
Qed.

(** X13. A poll needs a conversation and a valid token: if the session has
    no conversation, or its token is no longer valid (refreshing it
    discards the conversation), [get_activities] fails with the token
    error or the no-conversation error, without sending its GET, in the
    state the token check left, and the session has no conversation
    afterwards. *)
Theorem poll_needs_conversation_and_token (watermark_arg : Json) (st : State) :
  Py.truthy (conversation_id (fst st)) = false \/
  fst (token_still_valid st) = false ->
  (fst (get_activities watermark_arg st) = GetFail TokenUnavailable None \/
   fst (get_activities watermark_arg st) = GetFail NoConversationId None) /\
  snd (get_activities watermark_arg st) = snd (ensure_token_available st) /\
  Py.truthy (conversation_id (fst (snd (get_activities watermark_arg st)))) =
  false.
Proof.
  intros H.
  assert (Hc : Py.truthy (conversation_id
                            (fst (snd (ensure_token_available st)))) = false).
  { destruct H as [H | H].
    - destruct (ensure_conversation st) as [-> | [-> _]];
        [exact H | reflexivity].
    - destruct (refetch_path_clears_scope st H) as [-> _]. reflexivity. }
  unfold get_activities, bind.
  destruct (ensure_token_available st) as [ok [s1 w1]]. cbn [fst snd] in *.
  destruct ok; cbn [negb]; unfold self, ret; cbn [fst snd].
  - rewrite Hc. cbn [negb fst snd].
    split; [right; reflexivity|]. split; [reflexivity | exact Hc].
  - split; [left; reflexivity|]. split; [reflexivity | exact Hc].
Qed.

Lemma poll_needs_conversation_and_token_witness :
  fst (get_activities JNull expired_mid_poll) = GetFail NoConversationId None /\
  log (snd (snd (get_activities JNull expired_mid_poll))) =
  [Http (PostTokensGenerate "Bearer secret")].
Proof.
  destruct (poll_needs_conversation_and_token JNull expired_mid_poll)
    as (_ & H & _).
  - right. vm_compute. reflexivity.
  - split; [vm_compute; reflexivity|]. rewrite H. vm_compute. reflexivity.
Defined.

(** X14. An expired token dooms the retry loop: if [time.sleep] accepts
    the wait (not negative, not beyond its limit), the send succeeds, the
    attempts before number [k + 1] find no reply, and at attempt [k + 1]
    the token is no longer valid (or the conversation is gone), then
    whatever the server answers afterwards the call runs out all its
    retries and returns the exhaustion failure. *)
Theorem expired_token_dooms_polling (message : string)
        (wait_time max_retries : Z) (k : nat) (st : State) :
  let send_result := fst (send_message message st) in
  let sent := snd (send_message message st) in
  0 <= wait_time <= sleep_limit ->
  send_success send_result = true ->
  (forall j, (j < k)%nat -> has_reply (attempt_result wait_time j sent) = false) ->
  Py.truthy (conversation_id (fst (after_attempts wait_time k sent))) = false \/
  fst (token_still_valid (after_attempts wait_time k sent)) = false ->
  send_and_get_response message wait_time max_retries st =
  (Ok (NoReply (RetriesExhausted max_retries) message send_result max_retries),
   after_attempts wait_time (Z.to_nat max_retries) sent).
Proof.
  intros send_result sent Hw Hs Hbefore Hgone.
  rewrite send_and_get_response_polls by exact Hs.
  fold send_result sent.
  apply poll_exhausted; [exact Hw|].
  intros j _. destruct (Nat.lt_ge_cases j k) as [Hlt | Hge].
  - apply Hbefore, Hlt.
  - replace j with (k + (j - k))%nat by lia.
    unfold attempt_result. rewrite after_attempts_add.
    apply (no_reply_when_unavailable wait_time (j - k) Hw _ Hgone).
Qed.

Lemma expired_token_dooms_polling_witness :
  fst (send_and_get_response "hi" 2 3
         (in_conversation,
          world (fun n => if Nat.ltb n 3 then 1000 else 5000)
                [sent_reply; token_reply;
                 activities_reply [bot_activity "bot1" "hello"] "8"])) =
  Ok (NoReply (RetriesExhausted 3) "hi"
              (fst (send_message "hi"
                      (in_conversation,
                       world (fun n => if Nat.ltb n 3 then 1000 else 5000)
                             [sent_reply; token_reply;
                              activities_reply [bot_activity "bot1" "hello"] "8"])))
              3).
Proof.
  rewrite (expired_token_dooms_polling "hi" 2 3 0
             (in_conversation,
              world (fun n => if Nat.ltb n 3 then 1000 else 5000)
                    [sent_reply; token_reply;
                     activities_reply [bot_activity "bot1" "hello"] "8"])).
  - reflexivity.
  - unfold sleep_limit. lia.
  - vm_compute. reflexivity.
  - intros j Hj. lia.
  - right. vm_compute. reflexivity.
Defined.

(** With a valid token and a conversation, a poll goes through to its GET;
    [k] is what the method does with the reply. *)
Lemma get_activities_valid (watermark_arg : Json) (s : Service) (w : World) :
  fst (token_still_valid (s, w)) = true ->
  Py.truthy (conversation_id s) = true ->
  get_activities watermark_arg (s, w) =
  (reply <- http (GetActivities (conversation_id s)
                                (watermark_query watermark_arg (watermark s))
                                (current_token s)) ;;
   match reply with
   | Raised msg => ret (GetFail (GetError (TransportError msg)) None)
   | Responded response =>
       if status_code response =? 200 then
         match json response with
         | None => ret (GetFail (GetError JSONDecodeError) None)
         | Some activities_data =>
             match Py.get activities_data "activities" (JArr []) with
             | Raise e => ret (GetFail (GetError e) None)
             | Ok activities =>
                 match Py.get activities_data "watermark" JNull with
                 | Raise e => ret (GetFail (GetError e) None)
                 | Ok new_watermark =>
                     (if Py.truthy new_watermark
                      then update (set_watermark new_watermark)
                      else ret tt) ;;;
                     match read_activities activities with
                     | Raise e => ret (GetFail (GetError e) None)
                     | Ok (bot_responses, total) =>
                         ret (GetOk activities new_watermark
                                    bot_responses total)
                     end
                 end
             end
         end
       else
         ret (GetFail (GetFailed (status_code response) (text response))
                      (Some (status_code response)))
   end) (s, tick (tick w)).
Proof.
  intros Hv Hc. unfold get_activities. unfold bind at 1.
  rewrite (ensure_valid s w Hv). cbn [negb].
  unfold bind at 1, self. cbn [fst snd]. rewrite Hc. reflexivity.
Qed.

(** X15. With a valid token and a conversation, a poll that the transport
    fails, or that is answered with a status other than 200, reports the
    failure (with the status and body, when there is one) and leaves the
    whole session, watermark included, as it was. *)
Theorem failed_poll_keeps_session (watermark_arg : Json) (s : Service)
        (w : World) (reply : Reply) :
  fst (token_still_valid (s, w)) = true ->
  Py.truthy (conversation_id s) = true ->
  server w (calls w) = reply ->
  match reply with
  | Raised _ => True
  | Responded response => status_code response <> 200
  end ->
  fst (get_activities watermark_arg (s, w)) =
  match reply with
  | Raised msg => GetFail (GetError (TransportError msg)) None
  | Responded response =>
      GetFail (GetFailed (status_code response) (text response))
              (Some (status_code response))
  end /\
  fst (snd (get_activities watermark_arg (s, w))) = s.
Proof.
  intros Hv Hc Hr Hbad.
  rewrite (get_activities_valid watermark_arg s w Hv Hc). run_world.
  rewrite Hr. destruct reply as [msg|response]; [split; reflexivity|].
  destruct (Z.eqb_spec (status_code response) 200); [contradiction|].
  split; reflexivity.
Qed.

Lemma failed_poll_keeps_session_witness :
  fst (get_activities JNull
         (polling [Responded (mkResponse 502 "Bad Gateway" None)])) =
  GetFail (GetFailed 502 "Bad Gateway") (Some 502) /\
  fst (snd (get_activities JNull
              (polling [Responded (mkResponse 502 "Bad Gateway" None)]))) =
  in_conversation.
Proof.
  apply (failed_poll_keeps_session JNull in_conversation
           (world (frozen 1000) [Responded (mkResponse 502 "Bad Gateway" None)])
           (Responded (mkResponse 502 "Bad Gateway" None)));
    [reflexivity | reflexivity | reflexivity | discriminate].
Defined.

(** X16. A poll can fail and still move the watermark: when a 200 answer
    carries a non-empty watermark but its activities cannot be read (the
    list is not a list, an activity is not an object, ...), the method
    reports the exception as a failure after it has already stored the
    answer's watermark. *)
Theorem failed_poll_can_store_watermark (watermark_arg : Json) (s : Service)
        (w : World) (response : Response) (fields : list (string * Json))
        (mark : Json) (e : Exn) :
  let activities := match Py.lookup "activities" fields with
                    | Some v => v
                    | None => JArr []
                    end in
  fst (token_still_valid (s, w)) = true ->
  Py.truthy (conversation_id s) = true ->
  server w (calls w) = Responded response ->
  status_code response = 200 ->
  json response = Some (JObj fields) ->
  Py.lookup "watermark" fields = Some mark ->
  Py.truthy mark = true ->
  read_activities activities = Raise e ->
  fst (get_activities watermark_arg (s, w)) = GetFail (GetError e) None /\
  fst (snd (get_activities watermark_arg (s, w))) = set_watermark mark s.
Proof.
  intros activities Hv Hc Hr Hs Hj Hm Ht He.
  rewrite (get_activities_valid watermark_arg s w Hv Hc). run_world.
  rewrite Hr, Hs, Hj. cbn [Z.eqb Pos.eqb Py.get].
  fold activities. rewrite Hm, Ht, He. split; reflexivity.
Qed.

Lemma failed_poll_can_store_watermark_witness :
  get_success (fst (get_activities JNull (polling [broken_activities_reply]))) =
  false /\
  watermark (fst (snd (get_activities JNull (polling [broken_activities_reply])))) =
  JStr "8".
Proof.
  destruct (failed_poll_can_store_watermark JNull in_conversation
              (world (frozen 1000) [broken_activities_reply])
              (mkResponse 200 "{...}"
                 (Some (JObj [("activities", JNull); ("watermark", JStr "8")])))
              [("activities", JNull); ("watermark", JStr "8")]
              (JStr "8") TypeError
              eq_refl eq_refl eq_refl eq_refl eq_refl eq_refl eq_refl eq_refl)
    as [H1 H2].
  unfold polling. rewrite H1, H2. split; reflexivity.
Defined.

Lemma get_activities_request (watermark_arg : Json) (s : Service) (w : World) :
  fst (token_still_valid (s, w)) = true ->
  Py.truthy (conversation_id s) = true ->
  calls (snd (snd (get_activities watermark_arg (s, w)))) = S (calls w) /\
  log (snd (snd (get_activities watermark_arg (s, w)))) =
  log w ++
  [Http (GetActivities (conversation_id s)
                       (watermark_query watermark_arg (watermark s))
                       (current_token s))].
Proof.
  intros Hv Hc.
  rewrite (get_activities_valid watermark_arg s w Hv Hc). run_world.
  destruct (server w (calls w)) as [msg|response]; [split; reflexivity|].
  destruct (status_code response =? 200); [|split; reflexivity].
  destruct (json response) as [activities_data|]; [|split; reflexivity].
  destruct (Py.get activities_data "activities" (JArr [])) as [acts|];
    [|split; reflexivity].
  destruct (Py.get activities_data "watermark" JNull) as [mark|];
    [|split; reflexivity].
  destruct (Py.truthy mark); cbv beta iota; cbn [fst snd];
    destruct (read_activities acts) as [[bots n]|]; split; reflexivity.
Qed.

(** X17. With a valid token and a conversation, a poll makes exactly one
    request, whatever the answer: a GET on the conversation with the
    session's token, carrying the caller's watermark when that is
    non-empty, else the stored watermark when that is non-empty, else no
    watermark. *)
Theorem poll_makes_one_request (watermark_arg : Json) (s : Service) (w : World) :
  fst (token_still_valid (s, w)) = true ->
  Py.truthy (conversation_id s) = true ->
  let after := snd (snd (get_activities watermark_arg (s, w))) in
  calls after = S (calls w) /\
  log after =
  log w ++
  [Http (GetActivities
           (conversation_id s)
           (if Py.truthy watermark_arg then Some watermark_arg
            else if Py.truthy (watermark s) then Some (watermark s)
                 else None)
           (current_token s))].
Proof.
  intros Hv Hc after.
  assert (Hq : watermark_query watermark_arg (watermark s) =
               if Py.truthy watermark_arg then Some watermark_arg
               else if Py.truthy (watermark s) then Some (watermark s)
                    else None).
  { unfold watermark_query, Py.or.
    destruct (Py.truthy watermark_arg) eqn:Ha; [rewrite Ha; reflexivity|].
    destruct (Py.truthy (watermark s)); reflexivity. }
  rewrite <- Hq. apply get_activities_request; assumption.
Qed.

Lemma poll_makes_one_request_witness :
  log (snd (snd (get_activities (JStr "3") (polling [told_nothing])))) =
  [Http (GetActivities (JStr "conv1") (Some (JStr "3")) (JStr "tok"))].
Proof.
  destruct (poll_makes_one_request (JStr "3") in_conversation
              (world (frozen 1000) [told_nothing]) eq_refl eq_refl)
    as [_ H].
  exact H.
Defined.

(** X18. With a valid token, a poll changes nothing in the session but,
    at most, the watermark: token, expiry and conversation ID come out as
    they went in, whatever the server answers. *)
Theorem poll_changes_only_watermark (watermark_arg : Json) (s : Service)
        (w : World) :
  fst (token_still_valid (s, w)) = true ->
  let after := fst (snd (get_activities watermark_arg (s, w))) in
  current_token after = current_token s /\
  token_expires_at after = token_expires_at s /\
  conversation_id after = conversation_id s /\
  auth_header_value after = auth_header_value s.
Proof.
  intros Hv after. unfold after. clear after.
  destruct (Py.truthy (conversation_id s)) eqn:Hc.
  - rewrite (get_activities_valid watermark_arg s w Hv Hc). run_world.
    destruct (server w (calls w)) as [msg|response]; [repeat split|].
    destruct (status_code response =? 200); [|repeat split].
    destruct (json response) as [activities_data|]; [|repeat split].
    destruct (Py.get activities_data "activities" (JArr [])) as [acts|];
      [|repeat split].
    destruct (Py.get activities_data "watermark" JNull) as [mark|];
      [|repeat split].
    destruct (Py.truthy mark); cbv beta iota; cbn [fst snd];
      destruct (read_activities acts) as [[bots n]|]; repeat split.
  - destruct (get_activities_unavailable watermark_arg (s, w) (or_introl Hc))
      as (_ & -> & _).
    rewrite (ensure_valid s w Hv). repeat split.
Qed.

Lemma poll_changes_only_watermark_witness :
  conversation_id
    (fst (snd (get_activities JNull
                 (polling [activities_reply greeting_activities "8"])))) =
  JStr "conv1".
Proof.
  destruct (poll_changes_only_watermark JNull in_conversation
              (world (frozen 1000) [activities_reply greeting_activities "8"])
              eq_refl)
    as (_ & _ & H & _).
  exact H.
Defined.

Lemma spec_bot_responses_from (activities : list Json) (reply : Json) :
  In reply (spec_bot_responses activities) ->
  exists activity,
    In activity activities /\
    field "text" activity = Some reply /\
    from_local_user activity = false.
Proof.
  unfold spec_bot_responses. intros H.
  apply in_map_iff in H as (activity & Htext & Hin).
  apply filter_In in Hin as [Hin Hkeep].
  apply andb_true_iff in Hkeep as [Hfrom Hhas].
  exists activity. split; [exact Hin|]. split.
  - unfold text_of in Htext. unfold has_text in Hhas.
    destruct (field "text" activity) as [body|]; [|discriminate].
    rewrite Htext. reflexivity.
  - apply negb_true_iff, Hfrom.
Qed.

(** X19. Take a poll that gets through to the server and is answered 200
    with a JSON object whose activity list is the array [items].  When it
    succeeds, the result carries that array and the answer's watermark,
    the count it reports is the length of the array, there are no more
    bot responses than activities, and every bot response is the "text"
    entry of one of the activities sent, one that is not from user123.
    It does succeed when every activity is readable. *)
Theorem successful_poll_counts (watermark_arg : Json) (s : Service) (w : World)
        (response : Response) (fields : list (string * Json))
        (items : list Json) :
  let mark := match Py.lookup "watermark" fields with
              | Some v => v
              | None => JNull
              end in
  fst (token_still_valid (s, w)) = true ->
  Py.truthy (conversation_id s) = true ->
  server w (calls w) = Responded response ->
  status_code response = 200 ->
  json response = Some (JObj fields) ->
  match Py.lookup "activities" fields with
  | Some v => v
  | None => JArr []
  end = JArr items ->
  (get_success (fst (get_activities watermark_arg (s, w))) = true ->
   exists bot_responses,
     fst (get_activities watermark_arg (s, w)) =
     GetOk (JArr items) mark bot_responses (Z.of_nat (List.length items)) /\
     (List.length bot_responses <= List.length items)%nat /\
     forall reply,
       In reply bot_responses ->
       exists activity,
         In activity items /\
         field "text" activity = Some reply /\
         from_local_user activity = false) /\
  (forallb readable items = true ->
   get_success (fst (get_activities watermark_arg (s, w))) = true).
Proof.
  intros mark Hvalid Hconv Hreply Hstatus Hjson Hitems.
  rewrite (get_activities_reads_reply watermark_arg s w response fields
             Hvalid Hconv Hreply Hstatus Hjson).
  rewrite Hitems. fold mark.
  unfold read_activities. cbn [Py.len Py.iter try_bind].
  split.
  - destruct (scan_activities items) as [found|e] eqn:Hscan;
      cbn [try_bind get_success]; [|discriminate].
    intros _. apply scan_activities_spec in Hscan. subst found.
    exists (spec_bot_responses items). split; [reflexivity|]. split.
    + unfold spec_bot_responses. rewrite length_map. apply filter_length_le.
    + apply spec_bot_responses_from.
  - intros Hreadable. rewrite (scan_activities_readable items Hreadable).
    reflexivity.
Qed.

Lemma successful_poll_counts_witness :
  get_success (fst (get_activities JNull
                      (polling [activities_reply greeting_activities "8"]))) =
  true.
Proof.
  destruct (successful_poll_counts JNull in_conversation
              (world (frozen 1000) [activities_reply greeting_activities "8"])
              (mkResponse 200 "{...}"
                 (Some (JObj [("activities", JArr greeting_activities);
                              ("watermark", JStr "8")])))
              [("activities", JArr greeting_activities);
               ("watermark", JStr "8")]
              greeting_activities
              eq_refl eq_refl eq_refl eq_refl eq_refl eq_refl)
    as [_ H].
  exact (H eq_refl).
Defined.

(** ** The result of [send_and_get_response] *)

Lemma poll_result (message : string) (wait_time max_retries : Z)
      (send_result : SendResult) (remaining : nat) :
  forall (n : Z) (st st' : State) (r : ConversationResult),
    poll message wait_time max_retries send_result remaining n st = (Ok r, st') ->
    match r with
    | SendFailure _ => False
    | BotReplied sent_text bots sr gr attempts =>
        sent_text = message /\ bots = bot_responses_of gr /\
        has_reply gr = true /\ sr = send_result /\
        n + 1 <= attempts <= n + Z.of_nat remaining
    | NoReply e sent_text sr attempts =>
        e = RetriesExhausted max_retries /\ sent_text = message /\
        sr = send_result /\ attempts = max_retries
    end.
Proof.
  induction remaining as [|remaining IH]; intros n st st' r.
  - cbn [poll]. unfold ret. intros H. injection H as <- _. repeat split.
  - cbn [poll]. unfold bind at 1.
    destruct (sleep wait_time st) as [[[]|e] st1]; [|discriminate].
    unfold bind at 1.
    destruct (get_activities JNull st1) as [gr st2].
    destruct (has_reply gr) eqn:Hreply.
    + unfold ret. intros H. injection H as <- _.
      repeat split; try assumption; lia.
    + intros H. apply IH in H.
      destruct r as [sr|sent_text bots sr gr' attempts|e sent_text sr attempts];
        [exact H | | exact H].
      destruct H as (H1 & H2 & H3 & H4 & H5).
      repeat split; try assumption; lia.
Qed.

Lemma has_reply_inv (r : GetResult) :
  has_reply r = true -> get_success r = true /\ bot_responses_of r <> [].
Proof.
  unfold has_reply. intros H. apply andb_true_iff in H as [H1 H2].
  split; [exact H1|]. destruct (bot_responses_of r); [discriminate|].
  discriminate.
Qed.

Lemma send_and_get_response_shape (message : string) (wait_time max_retries : Z)
        (st st' : State) (r : ConversationResult) :
  send_and_get_response message wait_time max_retries st = (Ok r, st') ->
  match r with
  | SendFailure sr =>
      sr = fst (send_message message st) /\ send_success sr = false /\
      st' = snd (send_message message st)
  | BotReplied sent_text bots sr gr attempts =>
      sent_text = message /\ bots = bot_responses_of gr /\ bots <> [] /\
      get_success gr = true /\
      sr = fst (send_message message st) /\ send_success sr = true /\
      1 <= attempts <= max_retries
  | NoReply e sent_text sr attempts =>
      e = RetriesExhausted max_retries /\ sent_text = message /\
      sr = fst (send_message message st) /\ send_success sr = true /\
      attempts = max_retries
  end.
Proof.
  unfold send_and_get_response. unfold bind at 1.
  destruct (send_message message st) as [sr sent]. cbn [fst snd].
  destruct (send_success sr) eqn:Hs; cbn [negb].
  - intros H. apply poll_result in H.
    destruct r as [sr'|sent_text bots sr' gr attempts|e sent_text sr' attempts].
    + contradiction.
    + destruct H as (H1 & H2 & H3 & H4 & H5).
      apply has_reply_inv in H3 as [H3 H3'].
      subst sr'. rewrite <- H2 in H3'.
      repeat split; try assumption; lia.
    + destruct H as (H1 & H2 & H3 & H4). subst sr'.
      repeat split; assumption.
  - unfold ret. intros H. injection H as <- <-. repeat split. exact Hs.
Qed.


(** X20. Whatever [send_and_get_response] returns is well-formed.  A
    returned send failure is the failed result of [send_message].  A
    success names the message, a successful poll result with a non-empty
    [bot_responses] (the list the success carries), the successful send
    result, and an attempt count between 1 and [max_retries].  An
    exhaustion failure names the message, the successful send result and
    [attempts = max_retries]. *)
Theorem response_is_well_formed (message : string) (wait_time max_retries : Z)
        (st st' : State) (r : ConversationResult) :
  send_and_get_response message wait_time max_retries st = (Ok r, st') ->
  match r with
  | SendFailure sr =>
      sr = fst (send_message message st) /\ send_success sr = false /\
      st' = snd (send_message message st)
  | BotReplied sent_text bots sr gr attempts =>
      sent_text = message /\ bots = bot_responses_of gr /\ bots <> [] /\
      get_success gr = true /\
      sr = fst (send_message message st) /\ send_success sr = true /\
      1 <= attempts <= max_retries
  | NoReply e sent_text sr attempts =>
      e = RetriesExhausted max_retries /\ sent_text = message /\
      sr = fst (send_message message st) /\ send_success sr = true /\
      attempts = max_retries
  end.
Proof.
  unfold send_and_get_response. unfold bind at 1.
  destruct (send_message message st) as [sr sent]. cbn [fst snd].
  destruct (send_success sr) eqn:Hs; cbn [negb].
  - intros H. apply poll_result in H.
    destruct r as [sr'|sent_text bots sr' gr attempts|e sent_text sr' attempts].
    + contradiction.
    + destruct H as (H1 & H2 & H3 & H4 & H5).
      apply has_reply_inv in H3 as [H3 H3'].
      subst sr'. rewrite <- H2 in H3'.
      repeat split; try assumption; lia.
    + destruct H as (H1 & H2 & H3 & H4). subst sr'.
      repeat split; assumption.
  - unfold ret. intros H. injection H as <- <-. repeat split. exact Hs.
Qed.

Lemma response_is_well_formed_witness :
  match fst (send_and_get_response "hi" 2 5 reply_on_second) with
  | Ok (BotReplied _ _ _ _ attempts) => 1 <= attempts <= 5
  | _ => False
  end.
Proof.
  pose proof (response_is_well_formed "hi" 2 5 reply_on_second
                (snd (send_and_get_response "hi" 2 5 reply_on_second))
                (BotReplied "hi" [JStr "hello"]
                   (fst (send_message "hi" reply_on_second))
                   (attempt_result 2 1 (snd (send_message "hi" reply_on_second)))
                   2)) as H.
  cbv beta iota in H.
  assert (E : send_and_get_response "hi" 2 5 reply_on_second =
              (Ok (BotReplied "hi" [JStr "hello"]
                     (fst (send_message "hi" reply_on_second))
                     (attempt_result 2 1
                        (snd (send_message "hi" reply_on_second)))
                     2),
               snd (send_and_get_response "hi" 2 5 reply_on_second))).
  { vm_compute. reflexivity. }
  destruct (H E) as (_ & _ & _ & _ & _ & _ & Hn).
  rewrite E. exact Hn.
Defined.

Lemma refused_wait_raises (message : string)
        (wait_time max_retries : Z) (st : State) :
  wait_time < 0 \/ sleep_limit < wait_time ->
  0 < max_retries ->
  send_success (fst (send_message message st)) = true ->
  send_and_get_response message wait_time max_retries st =
  (Raise (if (wait_time <? - sleep_limit) || (sleep_limit <? wait_time)
          then OverflowError else ValueError),
   snd (send_message message st)).
Proof.
  intros Hw Hm Hs.
  rewrite send_and_get_response_polls by exact Hs.
  destruct (Z.to_nat max_retries) as [|remaining] eqn:Hn; [lia|].
  cbn [poll]. unfold bind at 1, sleep.
  destruct ((wait_time <? - sleep_limit) || (sleep_limit <? wait_time)) eqn:Hfar;
    [reflexivity|].
  apply orb_false_iff in Hfar as [_ Hhigh]. apply Z.ltb_ge in Hhigh.
  destruct (Z.ltb_spec wait_time 0); [reflexivity | lia].
Qed.

(** X21. A wait that [time.sleep] refuses is not caught: with
    [max_retries] at least 1 and a successful send, the call raises at
    its first sleep, after the message has been sent and before any poll
    -- [ValueError] for a negative wait, [OverflowError] for one beyond
    about 9.2e9 seconds in either direction. *)
Theorem refused_wait_raises_after_send (message : string)
        (wait_time max_retries : Z) (st : State) :
  wait_time < 0 \/ sleep_limit < wait_time ->
  0 < max_retries ->
  send_success (fst (send_message message st)) = true ->
  send_and_get_response message wait_time max_retries st =
  (Raise (if (wait_time <? - sleep_limit) || (sleep_limit <? wait_time)
          then OverflowError else ValueError),
   snd (send_message message st)).
Proof.
  intros Hw Hm Hs.
  rewrite send_and_get_response_polls by exact Hs.
  destruct (Z.to_nat max_retries) as [|remaining] eqn:Hn; [lia|].
  cbn [poll]. unfold bind at 1, sleep.
  destruct ((wait_time <? - sleep_limit) || (sleep_limit <? wait_time)) eqn:Hfar;
    [reflexivity|].
  apply orb_false_iff in Hfar as [_ Hhigh]. apply Z.ltb_ge in Hhigh.
  destruct (Z.ltb_spec wait_time 0); [reflexivity | lia].
Qed.

Lemma refused_wait_raises_after_send_witness :
  send_and_get_response "hi" (-1) 5 sent_only =
  (Raise ValueError, snd (send_message "hi" sent_only)) /\
  send_and_get_response "hi" 10000000000 5 sent_only =
  (Raise OverflowError, snd (send_message "hi" sent_only)).
Proof.
  split.
  - apply (refused_wait_raises_after_send "hi" (-1) 5 sent_only);
      [left; lia | lia | vm_compute; reflexivity].
  - apply (refused_wait_raises_after_send "hi" 10000000000 5 sent_only);
      [right; unfold sleep_limit; lia | lia | vm_compute; reflexivity].
Defined.

(** ** How long the call waits *)

Lemma waits_app (l1 l2 : list Event) :
  waits (l1 ++ l2) = waits l1 ++ waits l2.
Proof.
  induction l1 as [|[r|secs] l1 IH]; cbn [app waits].
  - reflexivity.
  - exact IH.
  - rewrite IH. reflexivity.
Qed.

Lemma ensure_waits (st : State) :
  waits (log (snd (snd (ensure_token_available st)))) = waits (log (snd st)).
Proof.
  destruct st as [s w].
  destruct (fst (token_still_valid (s, w))) eqn:Hv.
  - rewrite (ensure_valid s w Hv). reflexivity.
  - destruct (ensure_requests_log s w Hv) as [_ ->].
    rewrite waits_app. cbn [waits snd]. apply app_nil_r.
Qed.

Lemma get_activities_waits (watermark_arg : Json) (st : State) :
  waits (log (snd (snd (get_activities watermark_arg st)))) =
  waits (log (snd st)).
Proof.
  destruct st as [s w].
  destruct (fst (token_still_valid (s, w))) eqn:Hv.
  - destruct (Py.truthy (conversation_id s)) eqn:Hc.
    + destruct (get_activities_request watermark_arg s w Hv Hc) as [_ ->].
      rewrite waits_app. cbn [waits snd]. apply app_nil_r.
    + destruct (get_activities_unavailable watermark_arg (s, w) (or_introl Hc))
        as (_ & -> & _).
      apply ensure_waits.
  - destruct (get_activities_unavailable watermark_arg (s, w) (or_intror Hv))
      as (_ & -> & _).
    apply ensure_waits.
Qed.

Lemma start_conversation_waits (st : State) :
  waits (log (snd (snd (start_conversation st)))) = waits (log (snd st)).
Proof.
  unfold start_conversation. unfold bind at 1.
  pose proof (ensure_waits st) as He.
  destruct (ensure_token_available st) as [ok [s1 w1]]. cbn [fst snd] in He.
  destruct ok; cbn [negb]; [|exact He]. run_world.
  destruct (server w1 (calls w1)) as [msg|response];
    [cbn [snd log]; rewrite waits_app, app_nil_r; exact He|].
  destruct (status_in [200; 201] response);
    [|cbn [snd log]; rewrite waits_app, app_nil_r; exact He].
  destruct (json response) as [conversation_data|];
    [|cbn [snd log]; rewrite waits_app, app_nil_r; exact He].
  destruct (Py.get conversation_data "conversationId" JNull) as [named|];
    [|cbn [snd log]; rewrite waits_app, app_nil_r; exact He].
  destruct (Py.truthy named); cbv beta iota; cbn [fst snd log];
    rewrite waits_app, app_nil_r; exact He.
Qed.

Lemma send_message_waits (message : string) (st : State) :
  waits (log (snd (snd (send_message message st)))) = waits (log (snd st)).
Proof.
  unfold send_message. unfold bind at 1.
  pose proof (ensure_waits st) as He.
  destruct (ensure_token_available st) as [ok [s1 w1]]. cbn [fst snd] in He.
  destruct ok; cbn [negb]; [|exact He].
  unfold bind at 1, self. cbn [fst snd].
  destruct (Py.truthy (conversation_id s1)); cbn [negb].
  - rewrite post_message_run. cbn [snd log].
    rewrite waits_app, app_nil_r. exact He.
  - unfold bind at 1.
    pose proof (start_conversation_waits (s1, w1)) as Hs.
    destruct (start_conversation (s1, w1)) as [started [s2 w2]].
    cbn [fst snd] in Hs.
    destruct (start_success started); cbn [negb].
    + rewrite post_message_run. cbn [snd log].
      rewrite waits_app, app_nil_r, Hs. exact He.
    + unfold ret. cbn [snd]. rewrite Hs. exact He.
Qed.

Lemma poll_waits (message : string) (wait_time max_retries : Z)
      (send_result : SendResult) (remaining : nat) :
  forall (n : Z) (st st' : State) (r : ConversationResult),
    poll message wait_time max_retries send_result remaining n st = (Ok r, st') ->
    waits (log (snd st')) =
    waits (log (snd st)) ++
    repeat wait_time
           (match r with
            | SendFailure _ => 0
            | BotReplied _ _ _ _ attempts => Z.to_nat (attempts - n)
            | NoReply _ _ _ _ => remaining
            end).
Proof.
  induction remaining as [|remaining IH]; intros n st st' r.
  - cbn [poll]. unfold ret. intros H. injection H as <- <-.
    cbn [repeat]. symmetry. apply app_nil_r.
  - cbn [poll]. unfold bind at 1.
    destruct st as [s w]. unfold sleep at 1.
    destruct ((wait_time <? - sleep_limit) || (sleep_limit <? wait_time));
      [discriminate|].
    destruct (wait_time <? 0); [discriminate|]. cbn [fst snd].
    unfold bind at 1.
    pose proof (get_activities_waits JNull
                  (s, mkWorld (clock w) (ticks w) (server w) (calls w)
                              (log w ++ [Slept wait_time]))) as Hg.
    destruct (get_activities JNull _) as [gr st2]. cbn [fst snd log] in Hg.
    rewrite waits_app in Hg. cbn [waits] in Hg.
    destruct (has_reply gr).
    + unfold ret. intros H. injection H as <- <-.
      replace (n + 1 - n) with 1 by lia. exact Hg.
    + intros H. pose proof (poll_result _ _ _ _ _ _ _ _ _ H) as Hshape.
      apply IH in H. rewrite H, Hg, <- app_assoc. f_equal.
      destruct r as [sr|sent_text bots sr gr' attempts|e sent_text sr attempts].
      * contradiction.
      * destruct Hshape as (_ & _ & _ & _ & Hb).
        replace (Z.to_nat (attempts - n))
          with (S (Z.to_nat (attempts - (n + 1)))) by lia.
        reflexivity.
      * reflexivity.
Qed.

(** X22. Sleeping belongs to the polling attempts alone.  A returning
    [send_and_get_response] has added to the log the sleeps [wait_time],
    as many times as it polled -- [attempts] times for a success,
    [max_retries] times (none, if that is not positive) for an exhaustion
    failure, and not once when the send failed; and
    [ensure_token_available], [start_conversation], [send_message] and
    [get_activities] leave the sleeps of the log as they found them. *)
Theorem waits_once_per_attempt :
  (forall (message : string) (wait_time max_retries : Z) (st st' : State)
          (r : ConversationResult),
      send_and_get_response message wait_time max_retries st = (Ok r, st') ->
      waits (log (snd st')) =
      waits (log (snd st)) ++ repeat wait_time (attempts_made max_retries r)) /\
  (forall st : State,
      waits (log (snd (snd (ensure_token_available st)))) =
      waits (log (snd st))) /\
  (forall st : State,
      waits (log (snd (snd (start_conversation st)))) = waits (log (snd st))) /\
  (forall (message : string) (st : State),
      waits (log (snd (snd (send_message message st)))) =
      waits (log (snd st))) /\
  (forall (watermark_arg : Json) (st : State),
      waits (log (snd (snd (get_activities watermark_arg st)))) =
      waits (log (snd st))).
Proof.
  split; [|split; [|split; [|split]]].
  - intros message wait_time max_retries st st' r.
    unfold send_and_get_response. unfold bind at 1.
    pose proof (send_message_waits message st) as Hsend.
    destruct (send_message message st) as [sr sent]. cbn [fst snd] in *.
    destruct (send_success sr); cbn [negb].
    + intros H. apply poll_waits in H. rewrite H, Hsend. f_equal.
      destruct r as [sr'|sent_text bots sr' gr attempts|e sent_text sr' attempts];
        cbn [attempts_made]; [reflexivity | | reflexivity].
      rewrite Z.sub_0_r. reflexivity.
    + unfold ret. intros H. injection H as <- <-. cbn [attempts_made repeat].
      rewrite app_nil_r. exact Hsend.
  - exact ensure_waits.
  - exact start_conversation_waits.
  - exact send_message_waits.
  - exact get_activities_waits.
Qed.

Lemma waits_once_per_attempt_witness :
  waits (log (snd (snd (send_and_get_response "hi" 2 5 reply_on_second)))) =
  [2; 2].
Proof.
  rewrite (proj1 waits_once_per_attempt "hi" 2 5 reply_on_second
             (snd (send_and_get_response "hi" 2 5 reply_on_second))
             (BotReplied "hi" [JStr "hello"]
                (fst (send_message "hi" reply_on_second))
                (attempt_result 2 1 (snd (send_message "hi" reply_on_second)))
                2)).
  - reflexivity.
  - vm_compute. reflexivity.
Defined.

(** ** Construction *)

(** X23. Construction needs its configuration: it raises [ValueError]
    when AGENT_ENDPOINT_URL or CUSTOM_AUTH_HEADER_VALUE is unset or
    empty; otherwise both are set and non-empty, the service starts with
    the header value and no token, expiry, conversation or watermark, and
    its first [ensure_token_available] goes to the token endpoint without
    looking at the clock. *)
Theorem construction_needs_configuration (env : string -> option string) :
  match construct env with
  | Ok s =>
      (exists url, env "AGENT_ENDPOINT_URL" = Some url /\ url <> "") /\
      env "CUSTOM_AUTH_HEADER_VALUE" = Some (auth_header_value s) /\
      auth_header_value s <> "" /\
      s = init (auth_header_value s) /\
      forall w : World, ensure_token_available (s, w) = refetch s w
  | Raise e =>
      e = ValueError /\
      (getenv env "AGENT_ENDPOINT_URL" "" = "" \/
       getenv env "CUSTOM_AUTH_HEADER_VALUE" "" = "")
  end.
Proof.
  unfold construct, validate_configuration, getenv.
  destruct (env "AGENT_ENDPOINT_URL") as [url|];
    [|cbn; split; [reflexivity | left; reflexivity]].
  destruct (String.eqb_spec url "") as [-> | Hurl];
    [cbn; split; [reflexivity | left; reflexivity]|].
  destruct (env "CUSTOM_AUTH_HEADER_VALUE") as [value|];
    [|cbn; split; [reflexivity | right; reflexivity]].
  destruct (String.eqb_spec value "") as [-> | Hvalue];
    [cbn; split; [reflexivity | right; reflexivity]|].
  cbn [try_bind].
  split; [exists url; split; [reflexivity | exact Hurl]|].
  split; [reflexivity|]. split; [exact Hvalue|]. split; [reflexivity|].
  intros w.
  pose proof (token_still_valid_unset (init value) w (or_introl eq_refl)) as Hv.
  rewrite ensure_refetches; rewrite Hv; reflexivity.
Qed.

Lemma construction_needs_configuration_witness :
  construct configured = Ok fresh /\
  ensure_token_available (fresh, later 1000) = refetch fresh (later 1000).
Proof.
  split; [reflexivity|].
  pose proof (construction_needs_configuration configured) as H.
  change (construct configured) with (Ok fresh) in H.
  destruct H as (_ & _ & _ & _ & H). exact (H (later 1000)).
Defined.

(** ** The command line *)

Section ConsoleProperties.

Variables (strip lower : string -> string).

Lemma conversation_loop_quit (args : Args) (line : string)
      (before rest : list string) :
  wants_to_quit lower (strip line) = true ->
  forall st : State,
    conversation_loop strip lower args (before ++ line :: rest) st =
    conversation_loop strip lower args (before ++ [line]) st.
Proof.
  intros Hq. induction before as [|typed before IH]; intros st.
  - cbn [app conversation_loop]. rewrite Hq. reflexivity.
  - cbn [app conversation_loop].
    destruct (wants_to_quit lower (strip typed)); [reflexivity|].
    destruct (String.eqb (strip typed) ""); [apply IH|].
    destruct (arg_send_only args); unfold bind.
    + destruct (send_message (strip typed) st) as [r st1]. apply IH.
    + destruct (send_and_get_response (strip typed) (arg_wait args)
                                      (arg_retries args) st) as [[r|e] st1];
        [apply IH | reflexivity].
Qed.

Lemma interactive_loop_spins (inputs : list string) :
  (forall line, In line inputs -> wants_to_quit lower (strip line) = false) ->
  forall (fuel : nat) (st : State),
    fst (interactive_loop strip lower fuel inputs st) = None.
Proof.
  intros Hno fuel. revert inputs Hno.
  induction fuel as [|fuel IH]; intros inputs Hno st.
  - reflexivity.
  - cbn [interactive_loop]. destruct inputs as [|line rest].
    + apply IH. intros line [].
    + rewrite (Hno line (or_introl eq_refl)).
      assert (Hrest : forall l, In l rest ->
                                wants_to_quit lower (strip l) = false).
      { intros l Hl. apply Hno. right. exact Hl. }
      destruct (String.eqb (strip line) ""); [apply IH, Hrest|].
      unfold bind.
      destruct (send_and_get_response (strip line) 5 5 st) as [r st1].
      apply IH, Hrest.
Qed.

Lemma interactive_loop_quits (before : list string) (line : string)
      (rest : list string) :
  (forall l, In l before -> wants_to_quit lower (strip l) = false) ->
  wants_to_quit lower (strip line) = true ->
  forall (fuel : nat) (st : State),
    (List.length before < fuel)%nat ->
    fst (interactive_loop strip lower fuel (before ++ line :: rest) st) =
    Some tt.
Proof.
  intros Hno Hq. induction before as [|typed before IH]; intros fuel st Hfuel.
  - destruct fuel as [|fuel]; [cbn in Hfuel; lia|].
    cbn [app interactive_loop]. rewrite Hq. reflexivity.
  - destruct fuel as [|fuel]; [cbn in Hfuel; lia|].
    cbn [List.length] in Hfuel.
    assert (Hrest : forall l, In l before ->
                              wants_to_quit lower (strip l) = false).
    { intros l Hl. apply Hno. right. exact Hl. }
    cbn [app interactive_loop]. rewrite (Hno typed (or_introl eq_refl)).
    destruct (String.eqb (strip typed) ""); [apply (IH Hrest); lia|].
    unfold bind.
    destruct (send_and_get_response (strip typed) 5 5 st) as [r st1].
    apply (IH Hrest). lia.
Qed.

(** X24. Without [--continue] and [--send-only], the command reports
    success only when a bot reply was received: a [True] status means the
    service was constructed and [send_and_get_response] returned its
    success result, with a non-empty list of bot responses and an attempt
    count between 1 and [--retries]. *)
Theorem exit_status_means_bot_reply (env : string -> option string)
        (args : Args) (inputs : list string) (w : World) (st : State) :
  arg_continue args = false ->
  arg_send_only args = false ->
  send_message_from_args strip lower env args inputs w = Ok (true, st) ->
  exists service bots sr gr attempts,
    construct env = Ok service /\
    send_and_get_response (arg_message args) (arg_wait args) (arg_retries args)
                          (service, w) =
    (Ok (BotReplied (arg_message args) bots sr gr attempts), st) /\
    bots <> [] /\
    1 <= attempts <= arg_retries args.
Proof.
  intros Hc Hs. unfold send_message_from_args.
  destruct (construct env) as [service|e]; cbn [try_bind]; [|discriminate].
  unfold exchange. rewrite Hc, Hs. unfold bind, ret.
  destruct (send_and_get_response _ _ _ (service, w)) as [[r|e] st1] eqn:E;
    [|discriminate].
  intros H. injection H as Hok <-.
  pose proof (send_and_get_response_shape _ _ _ _ _ _ E) as Hshape.
  destruct r as [sr|sent_text bots sr gr attempts|err sent_text sr attempts].
  - destruct Hshape as (_ & Hfail & _). cbn [success] in Hok.
    rewrite Hfail in Hok. discriminate.
  - destruct Hshape as (-> & _ & Hbots & _ & _ & _ & Hn).
    exists service, bots, sr, gr, attempts. repeat split; try assumption; lia.
  - discriminate.
Qed.

(** X25. A negative [--wait] makes the plain command fail after it has
    sent the message: with a constructed service, [--retries] at least 1
    and a successful send, the status is [False] and the state is the one
    [send_message] left -- what the first sleep raises is caught by the
    command. *)
Theorem negative_wait_fails_command (env : string -> option string)
        (args : Args) (inputs : list string) (w : World) (service : Service) :
  construct env = Ok service ->
  arg_continue args = false ->
  arg_send_only args = false ->
  arg_wait args < 0 ->
  0 < arg_retries args ->
  send_success (fst (send_message (arg_message args) (service, w))) = true ->
  send_message_from_args strip lower env args inputs w =
  Ok (false, snd (send_message (arg_message args) (service, w))).
Proof.
  intros Hsvc Hc Hs Hw Hr Hsent. unfold send_message_from_args.
  rewrite Hsvc. cbn [try_bind]. unfold exchange. rewrite Hc, Hs.
  unfold bind, ret.
  rewrite (refused_wait_raises _ _ _ _ (or_introl Hw) Hr Hsent). reflexivity.
Qed.

(** X26. In continuous mode the status is settled by the first exchange
    alone: it does not depend on what is typed afterwards, and unless it
    is [True] nothing is read and nothing more is sent -- the state is the
    one the first exchange left. *)
Theorem continuous_status_is_first_exchange (initial_message : string)
        (args : Args) (inputs : list string) (st : State) :
  fst (continuous_conversation_mode strip lower initial_message args inputs st) =
  fst (continuous_conversation_mode strip lower initial_message args [] st) /\
  (fst (continuous_conversation_mode strip lower initial_message args inputs st)
   <> Ok true ->
   snd (continuous_conversation_mode strip lower initial_message args inputs st) =
   snd (continuous_conversation_mode strip lower initial_message args [] st)).
Proof.
  unfold continuous_conversation_mode.
  destruct (arg_send_only args); unfold bind, ret.
  - destruct (send_message initial_message st) as [r st1].
    destruct (send_success r); cbn [conversation_loop].
    + destruct (conversation_loop strip lower args inputs st1) as [[] st2].
      unfold ret. cbn [fst snd]. split; [reflexivity|]. intros H.
      contradiction H. reflexivity.
    + split; reflexivity.
  - destruct (send_and_get_response initial_message (arg_wait args)
                                    (arg_retries args) st) as [[r|e] st1].
    + destruct (success r); cbn [conversation_loop].
      * destruct (conversation_loop strip lower args inputs st1) as [[] st2].
        unfold ret. cbn [fst snd]. split; [reflexivity|]. intros H.
        contradiction H. reflexivity.
      * split; reflexivity.
    + split; reflexivity.
Qed.

(** X27. Nothing typed after a quit word is read or sent: in continuous
    mode a run on lines that include a quit word (quit, exit, q or the
    Japanese word, in any case, blanks around it stripped) is the run on
    the lines up to and including that word. *)
Theorem nothing_after_quit_is_sent (initial_message : string) (args : Args)
        (line : string) (before rest : list string) (st : State) :
  wants_to_quit lower (strip line) = true ->
  continuous_conversation_mode strip lower initial_message args
                               (before ++ line :: rest) st =
  continuous_conversation_mode strip lower initial_message args
                               (before ++ [line]) st.
Proof.
  intros Hq. unfold continuous_conversation_mode.
  destruct (arg_send_only args); unfold bind.
  - destruct (send_message initial_message st) as [r st1].
    destruct (send_success r); [|reflexivity].
    rewrite (conversation_loop_quit args line before rest Hq st1).
    reflexivity.
  - destruct (send_and_get_response initial_message (arg_wait args)
                                    (arg_retries args) st) as [[r|e] st1];
      [|reflexivity].
    destruct (success r); [|reflexivity].
    rewrite (conversation_loop_quit args line before rest Hq st1).
    reflexivity.
Qed.

(** X28. Interactive mode ends only on a quit word.  If no typed line is
    one, the loop is still running after any number of turns: at the end
    of the input the [EOFError] is caught inside the loop, which goes on.
    If a line is one, the loop returns as soon as it has taken the lines
    before it. *)
Theorem interactive_mode_ends_only_on_quit :
  (forall inputs : list string,
      (forall line, In line inputs -> wants_to_quit lower (strip line) = false) ->
      forall (fuel : nat) (st : State),
        fst (interactive_loop strip lower fuel inputs st) = None) /\
  (forall (before : list string) (line : string) (rest : list string),
      (forall l, In l before -> wants_to_quit lower (strip l) = false) ->
      wants_to_quit lower (strip line) = true ->
      forall (fuel : nat) (st : State),
        (List.length before < fuel)%nat ->
        fst (interactive_loop strip lower fuel (before ++ line :: rest) st) =
        Some tt).
Proof.
  split.
  - exact interactive_loop_spins.
  - exact interactive_loop_quits.
Qed.

End ConsoleProperties.

Lemma exit_status_means_bot_reply_witness :
  exists service bots sr gr attempts,
    construct configured = Ok service /\
    send_and_get_response "hi" 2 5 (service, second_reply_world) =
    (Ok (BotReplied "hi" bots sr gr attempts),
     snd (send_and_get_response "hi" 2 5 reply_on_second)) /\
    bots <> [] /\
    1 <= attempts <= 5.
Proof.
  apply (exit_status_means_bot_reply ascii_strip ascii_lower configured
           plain_args [] second_reply_world
           (snd (send_and_get_response "hi" 2 5 reply_on_second))).
  - reflexivity.
  - reflexivity.
  - vm_compute. reflexivity.
Defined.

Lemma negative_wait_fails_command_witness :
  send_message_from_args ascii_strip ascii_lower configured hasty_args []
                         sent_only_world =
  Ok (false, snd (send_message "hi" sent_only)).
Proof.
  apply (negative_wait_fails_command ascii_strip ascii_lower configured
           hasty_args [] sent_only_world fresh).
  - reflexivity.
  - reflexivity.
  - reflexivity.
  - reflexivity.
  - reflexivity.
  - vm_compute. reflexivity.
Defined.

Lemma continuous_status_is_first_exchange_witness :
  fst (continuous_conversation_mode ascii_strip ascii_lower "hi" continue_args
         ["and then?"; "quit"] reply_on_second) =
  fst (continuous_conversation_mode ascii_strip ascii_lower "hi" continue_args
         [] reply_on_second).
Proof.
  apply (proj1 (continuous_status_is_first_exchange ascii_strip ascii_lower
                  "hi" continue_args ["and then?"; "quit"] reply_on_second)).
Defined.

Lemma nothing_after_quit_is_sent_witness :
  continuous_conversation_mode ascii_strip ascii_lower "hi" continue_args
                               ([""] ++ "  Quit " :: ["one more"])
                               reply_on_second =
  continuous_conversation_mode ascii_strip ascii_lower "hi" continue_args
                               ([""] ++ ["  Quit "]) reply_on_second.
Proof.
  apply (nothing_after_quit_is_sent ascii_strip ascii_lower "hi" continue_args
           "  Quit " [""] ["one more"] reply_on_second).
  vm_compute. reflexivity.
Defined.

Lemma interactive_mode_ends_only_on_quit_witness :
  fst (interactive_loop ascii_strip ascii_lower 50 [""; "  "] offline) = None /\
  fst (interactive_loop ascii_strip ascii_lower 3 ([""; "  "] ++ "EXIT" :: [])
                        offline) = Some tt.
Proof.
  destruct (interactive_mode_ends_only_on_quit ascii_strip ascii_lower)
    as [Hspin Hquit].
  split.
  - apply Hspin. intros line [<- | [<- | []]]; vm_compute; reflexivity.
  - apply Hquit.
    + intros line [<- | [<- | []]]; vm_compute; reflexivity.
    + vm_compute. reflexivity.
    + cbn. lia.
Defined.
